(** * Share tokens of NoteDiscovery: a shallow embedding of [backend/share.py]

    The module keeps one JSON file per data directory,
    [<data_dir>/.share-tokens.json], mapping a share token to a record
    [{path, theme, created}].  Every operation loads the whole file, works on
    the loaded Python dict and, when it mutates, rewrites the whole file.

    Modelling decisions:
    - a Python [dict] is an association list in insertion order (iteration
      with [.items()] is in that order and the scans return the first match);
      Python keeps the keys of a dict unique, [unique_keys] says so;
    - the values of a record are arbitrary JSON values ([Dict[str, Any]]);
      floating point numbers are left out;
    - a Python [str] is a [string];
    - a path is what [pathlib] makes of a string on a POSIX system (anchor
      and parts, with empty and "." parts dropped); which file a path names
      (links, "..", the working directory) is decided by the file system;
    - the file system maps each file to what reading it yields; what happens
      on a write (success, refusal, a torn write) belongs to the environment
      of the call, with the random source and the clock;
    - strings that UTF-8 cannot encode (lone surrogates) and a NUL in the
      data directory are outside the model: there [save_tokens] raises;
    - the functions run sequentially: the module-wide lock is not modelled. *)

From Stdlib Require Import List String Ascii ZArith Bool Arith Lia.
Import ListNotations.
Open Scope string_scope.

(** ** Python values *)

#[local] Set Warnings "-register-all".

Inductive Any : Type :=
| PyNone
| PyBool (b : bool)
| PyInt (z : Z)
| PyStr (s : string)
| PyList (l : list Any)
| PyDict (d : list (string * Any)).

(** [bool(v)]: the truth value Python gives to [v]. *)
Definition truthy (v : Any) : bool :=
  match v with
  | PyNone => false
  | PyBool b => b
  | PyInt z => negb (z =? 0)%Z
  | PyStr s => negb (s =? "")
  | PyList l => match l with [] => false | _ => true end
  | PyDict d => match d with [] => false | _ => true end
  end.

(** [v == s] for a [str] [s]: only an equal [str] compares equal. *)
Definition eq_str (v : Any) (s : string) : bool :=
  match v with
  | PyStr s' => s' =? s
  | _ => false
  end.

(** ** Python dicts with [str] keys *)

Section Dict.
Context {V : Type}.

Definition dict : Type := list (string * V).

(** [k in d] and [d[k]] *)
Fixpoint dict_get (k : string) (d : dict) : option V :=
  match d with
  | [] => None
  | (k', v) :: rest => if k' =? k then Some v else dict_get k rest
  end.

Definition dict_contains (k : string) (d : dict) : bool :=
  match dict_get k d with Some _ => true | None => false end.

(** [d[k] = v]: an existing key keeps its place, a new key goes last. *)
Fixpoint dict_set (k : string) (v : V) (d : dict) : dict :=
  match d with
  | [] => [(k, v)]
  | (k', v') :: rest =>
      if k' =? k then (k, v) :: rest else (k', v') :: dict_set k v rest
  end.

(** [del d[k]] *)
Definition dict_del (k : string) (d : dict) : dict :=
  filter (fun kv => negb (fst kv =? k)) d.

Definition keys (d : dict) : list string := map fst d.
Definition values (d : dict) : list V := map snd d.

(** The keys of a Python dict are pairwise distinct. *)
Fixpoint unique_keys (d : dict) : bool :=
  match d with
  | [] => true
  | (k, _) :: rest => negb (dict_contains k rest) && unique_keys rest
  end.
End Dict.

Arguments dict V : clear implicits.

(** [info.get(k, default)]; [info.get(k)] is [get info k PyNone]. *)
Definition get (info : dict Any) (k : string) (default : Any) : Any :=
  match dict_get k info with
  | Some v => v
  | None => default
  end.

Definition Record_ : Type := dict Any.
Definition Table : Type := dict Record_.

(** ** Outcomes of a call *)

Inductive exn : Type :=
| JSONDecodeError
| IOError
| UnicodeDecodeError.

(** A call returns, raises to its caller, or ([Diverge]) is still in a loop
    when the fuel given to the model runs out. *)
Inductive res (A : Type) : Type :=
| Ret (a : A)
| Raise (e : exn)
| Diverge.

Arguments Ret {A} a.
Arguments Raise {A} e.
Arguments Diverge {A}.

Definition bind {A B : Type} (c : res A) (k : A -> res B) : res B :=
  match c with
  | Ret a => k a
  | Raise e => Raise e
  | Diverge => Diverge
  end.

Notation "x <- c ;; k" := (bind c (fun x => k))
  (at level 100, c at next level, right associativity).

(** [try: c except handled: h] *)
Definition try_except {A : Type} (c : res A) (handled : exn -> bool) (h : res A)
  : res A :=
  match c with
  | Raise e => if handled e then h else Raise e
  | r => r
  end.

(** ** The file system and the environment of a call *)

(** What is on disk where a JSON document should be. *)
Inductive Junk : Type :=
| NotJson      (* text that [json.load] rejects, the empty file included *)
| NotUtf8.     (* bytes that the utf-8 codec rejects *)

Inductive Content : Type :=
| Json (t : Table)
| Garbled (j : Junk).

Inductive File : Type :=
| Absent
| Unreadable            (* exists, [open] for reading raises an [OSError] *)
| Inaccessible          (* [stat] raises an [OSError] that is not "no such
                           file": a directory that cannot be searched, a
                           name that is too long *)
| Holds (c : Content).

(** [pathlib.PurePosixPath]: the anchor ("", "/" or "//") and the parts. *)
Record Path : Type := mkPath { root : string; parts : list string }.

(** [s.split(sep)], with [cur] the part read so far. *)
Fixpoint split_on (sep : ascii) (s : string) (cur : string) : list string :=
  match s with
  | EmptyString => [cur]
  | String c rest =>
      if Ascii.eqb c sep then cur :: split_on sep rest ""
      else split_on sep rest (cur ++ String c "")
  end.

(** [posixpath.splitroot]: one leading slash or three and more are the root
    "/", exactly two are the root "//". *)
Definition splitroot (p : string) : string * string :=
  match p with
  | String c1 rest1 =>
      if Ascii.eqb c1 "/" then
        match rest1 with
        | String c2 rest2 =>
            if Ascii.eqb c2 "/" then
              match rest2 with
              | String c3 _ =>
                  if Ascii.eqb c3 "/" then ("/", rest1) else ("//", rest2)
              | EmptyString => ("//", rest2)
              end
            else ("/", rest1)
        | EmptyString => ("/", rest1)
        end
      else ("", p)
  | EmptyString => ("", p)
  end.

(** [Path(s)]: empty parts and "." parts are dropped. *)
Definition Path_of (s : string) : Path :=
  let (anchor, rel) := splitroot s in
  mkPath anchor
    (filter (fun x => negb (x =? "") && negb (x =? "."))
       (split_on "/" rel "")).

(** [p / key] *)
Definition truediv (p : Path) (key : string) : Path :=
  let q := Path_of key in
  if root q =? "" then mkPath (root p) (parts p ++ parts q) else q.

Fixpoint parts_eqb (l1 l2 : list string) : bool :=
  match l1, l2 with
  | [], [] => true
  | x :: l1', y :: l2' => (x =? y) && parts_eqb l1' l2'
  | _, _ => false
  end.

Definition Path_eqb (p q : Path) : bool :=
  (root p =? root q) && parts_eqb (parts p) (parts q).

(** The file system: [locate] says which file a path names (its resolved
    path), [files] what each file holds. *)
Record FS : Type := mkFS { locate : Path -> Path; files : Path -> File }.

Definition file_at (fs : FS) (p : Path) : File := files fs (locate fs p).

Definition fs_put (fs : FS) (p : Path) (f : File) : FS :=
  mkFS (locate fs)
    (fun i => if Path_eqb i (locate fs p) then f else files fs i).

(** What the disk does with the one write a call may attempt. *)
Inductive WriteOutcome : Type :=
| Written               (* the file now holds the document *)
| Refused               (* [mkdir] or [open] raises an [OSError]: no change *)
| Torn (j : Junk).      (* opened and truncated, then an [OSError] *)

Record Env : Type := mkEnv {
  rand : nat -> nat;     (* the raw draws of the secure random source *)
  utcnow : string;       (* [datetime.now(timezone.utc).isoformat()] *)
  write : WriteOutcome
}.

(** ** generate_token *)

Definition ascii_lowercase : string := "abcdefghijklmnopqrstuvwxyz".
Definition ascii_uppercase : string := "ABCDEFGHIJKLMNOPQRSTUVWXYZ".
Definition ascii_letters : string := ascii_lowercase ++ ascii_uppercase.
Definition digits : string := "0123456789".

Definition alphabet : string := ascii_letters ++ digits ++ "_-".

(** [secrets.randbelow(n)]: some number below [n], here the raw draw reduced
    modulo [n]. *)
Definition randbelow (n raw : nat) : nat := raw mod n.

(** [secrets.choice(seq)] is [seq[randbelow(len(seq))]]; the sequence is
    never empty here. *)
Definition choice (seq : string) (raw : nat) : ascii :=
  match String.get (randbelow (String.length seq) raw) seq with
  | Some c => c
  | None => zero
  end.

Definition generate_token_default_length : Z := 16.

(** Returns the token and the random source after [length] draws;
    [range(length)] is empty for a negative [length]. *)
Definition generate_token (length : Z) (rng : nat -> nat)
  : string * (nat -> nat) :=
  let n := Z.to_nat length in
  (string_of_list_ascii (map (fun i => choice alphabet (rng i)) (seq 0 n)),
   fun i => rng (n + i)).

(** ** Loading and saving *)

Definition get_tokens_file_path (data_dir : string) : Path :=
  truediv (Path_of data_dir) ".share-tokens.json".

(** [p.exists()]: an [OSError] of [stat] other than ENOENT, ENOTDIR, EBADF
    and ELOOP is raised again (Python up to 3.12; from 3.13 on such a path
    reads as an [Absent] one).  [IOError] is [OSError] with its subclasses. *)
Definition exists_ (fs : FS) (p : Path) : res bool :=
  match file_at fs p with
  | Absent => Ret false
  | Inaccessible => Raise IOError
  | _ => Ret true
  end.

(** [with open(p, 'r', encoding='utf-8') as f: return json.load(f)] *)
Definition open_json_load (fs : FS) (p : Path) : res Table :=
  match file_at fs p with
  | Absent => Raise IOError
  | Unreadable => Raise IOError
  | Inaccessible => Raise IOError
  | Holds (Json t) => Ret t
  | Holds (Garbled NotJson) => Raise JSONDecodeError
  | Holds (Garbled NotUtf8) => Raise UnicodeDecodeError
  end.

Definition load_tokens (fs : FS) (data_dir : string) : res Table :=
  let tokens_file := get_tokens_file_path data_dir in
  found <- exists_ fs tokens_file ;;
  if negb found then Ret []
  else
    try_except (open_json_load fs tokens_file)
      (fun e => match e with
                | JSONDecodeError | IOError => true
                | _ => false
                end)
      (Ret []).

(** The table and the path are taken to be writable as UTF-8 text. *)
Definition save_tokens (e : Env) (data_dir : string) (tokens : Table) (fs : FS)
  : bool * FS :=
  let tokens_file := get_tokens_file_path data_dir in
  match write e with
  | Written => (true, fs_put fs tokens_file (Holds (Json tokens)))
  | Refused => (false, fs)
  | Torn j => (false, fs_put fs tokens_file (Holds (Garbled j)))
  end.

(** ** The operations *)

(** [info.get('path') == note_path] *)
Definition path_is (note_path : string) (info : Record_) : bool :=
  eq_str (get info "path" PyNone) note_path.

(** [for token, info in tokens.items(): if info.get('path') == note_path: ...]
    stops at the first record of the path. *)
Definition first_match (note_path : string) (tokens : Table)
  : option (string * Record_) :=
  find (fun kv => path_is note_path (snd kv)) tokens.

(** [while token in tokens: token = generate_token()] *)
Fixpoint regenerate (fuel : nat) (tokens : Table) (token : string)
  (rng : nat -> nat) : option string :=
  if dict_contains token tokens then
    match fuel with
    | O => None
    | S fuel' =>
        let (token', rng') := generate_token generate_token_default_length rng in
        regenerate fuel' tokens token' rng'
    end
  else Some token.

Definition create_share_token (e : Env) (fuel : nat)
  (data_dir note_path theme : string) (fs : FS) : res (option string) * FS :=
  match load_tokens fs data_dir with
  | Raise ex => (Raise ex, fs)
  | Diverge => (Diverge, fs)
  | Ret tokens =>
      match first_match note_path tokens with
      | Some (token, _) => (Ret (Some token), fs)
      | None =>
          let (token, rng) :=
            generate_token generate_token_default_length (rand e) in
          match regenerate fuel tokens token rng with
          | None => (Diverge, fs)
          | Some token =>
              let tokens :=
                dict_set token
                  [("path", PyStr note_path);
                   ("theme", PyStr theme);
                   ("created", PyStr (utcnow e))]
                  tokens in
              let (saved, fs') := save_tokens e data_dir tokens fs in
              if saved then (Ret (Some token), fs') else (Ret None, fs')
          end
      end
  end.

Definition get_share_token (fs : FS) (data_dir note_path : string)
  : res (option string) :=
  tokens <- load_tokens fs data_dir ;;
  match first_match note_path tokens with
  | Some (token, _) => Ret (Some token)
  | None => Ret None
  end.

Definition get_note_by_token (fs : FS) (data_dir token : string)
  : res (option (dict Any)) :=
  tokens <- load_tokens fs data_dir ;;
  match dict_get token tokens with
  | Some info =>
      Ret (Some [("path", get info "path" PyNone);
                 ("theme", get info "theme" (PyStr "light"))])
  | None => Ret None
  end.

Definition get_all_shared_paths (fs : FS) (data_dir : string)
  : res (list Any) :=
  tokens <- load_tokens fs data_dir ;;
  Ret (map (fun info => get info "path" PyNone)
         (filter (fun info => truthy (get info "path" PyNone))
            (values tokens))).

Definition revoke_share_token (e : Env) (data_dir note_path : string) (fs : FS)
  : res bool * FS :=
  match load_tokens fs data_dir with
  | Raise ex => (Raise ex, fs)
  | Diverge => (Diverge, fs)
  | Ret tokens =>
      let token_to_remove :=
        match first_match note_path tokens with
        | Some (token, _) => PyStr token
        | None => PyNone
        end in
      match token_to_remove with
      | PyStr token =>
          if truthy token_to_remove then
            let (saved, fs') :=
              save_tokens e data_dir (dict_del token tokens) fs in
            (Ret saved, fs')
          else (Ret false, fs)
      | _ => (Ret false, fs)
      end
  end.

Definition get_share_info (fs : FS) (data_dir note_path : string)
  : res (dict Any) :=
  tokens <- load_tokens fs data_dir ;;
  match first_match note_path tokens with
  | Some (token, info) =>
      Ret [("token", PyStr token);
           ("theme", get info "theme" (PyStr "light"));
           ("created", get info "created" PyNone);
           ("shared", PyBool true)]
  | None => Ret [("shared", PyBool false)]
  end.

(** The loop of [update_token_path]: the first record of [old_path] gets
    [info['path'] = new_path], in place; [None] when no record matches. *)
Fixpoint set_first_path (old_path new_path : string) (tokens : Table)
  : option Table :=
  match tokens with
  | [] => None
  | (token, info) :: rest =>
      if path_is old_path info then
        Some ((token, dict_set "path" (PyStr new_path) info) :: rest)
      else
        option_map (cons (token, info)) (set_first_path old_path new_path rest)
  end.

Definition update_token_path (e : Env) (data_dir old_path new_path : string)
  (fs : FS) : res bool * FS :=
  match load_tokens fs data_dir with
  | Raise ex => (Raise ex, fs)
  | Diverge => (Diverge, fs)
  | Ret tokens =>
      match set_first_path old_path new_path tokens with
      | Some tokens' =>
          let (saved, fs') := save_tokens e data_dir tokens' fs in
          (Ret saved, fs')
      | None => (Ret false, fs)
      end
  end.

Definition delete_token_for_note (e : Env) (data_dir note_path : string)
  (fs : FS) : res bool * FS :=
  revoke_share_token e data_dir note_path fs.

(** ** Properties stated by the specification *)

(** The alphabet in the words of the specification: A-Z, a-z, 0-9,
    underscore and hyphen. *)
Definition between (lo hi c : ascii) : bool :=
  ((nat_of_ascii lo <=? nat_of_ascii c) && (nat_of_ascii c <=? nat_of_ascii hi))%nat.

Definition url_safe (c : ascii) : bool :=
  (between "A" "Z" c || between "a" "z" c || between "0" "9" c
   || Ascii.eqb c "_" || Ascii.eqb c "-")%char.

(** The number of records of a path. *)
Definition count_path (p : string) (t : Table) : nat :=
  List.length (filter (fun kv => path_is p (snd kv)) t).

(** At most one token maps to any given path. *)
Definition at_most_one_token (t : Table) : Prop :=
  forall p T1 T2 info1 info2,
    dict_get T1 t = Some info1 -> dict_get T2 t = Some info2 ->
    path_is p info1 = true -> path_is p info2 = true ->
    T1 = T2.

(** The record that [create_share_token] stores. *)
Definition new_record (e : Env) (note_path theme : string) : Record_ :=
  [("path", PyStr note_path); ("theme", PyStr theme);
   ("created", PyStr (utcnow e))].

(** Tables reachable from the empty table by the three mutating operations,
    in any environment. *)
Inductive reachable (d : string) : FS -> Prop :=
| reach_empty fs :
    load_tokens fs d = Ret [] -> reachable d fs
| reach_create fs e fuel p theme :
    reachable d fs ->
    reachable d (snd (create_share_token e fuel d p theme fs))
| reach_revoke fs e p :
    reachable d fs ->
    reachable d (snd (revoke_share_token e d p fs))
| reach_update fs e old_path new_path :
    reachable d fs ->
    reachable d (snd (update_token_path e d old_path new_path fs)).

(** [new_path] has no record yet. *)
Definition not_shared (fs : FS) (d new_path : string) : Prop :=
  forall T, get_share_token fs d new_path <> Ret (Some T).

(** The same, when a note is only renamed onto a path that is not shared
    (or onto its own path). *)
Inductive reachable_renaming_apart (d : string) : FS -> Prop :=
| apart_empty fs :
    load_tokens fs d = Ret [] -> reachable_renaming_apart d fs
| apart_create fs e fuel p theme :
    reachable_renaming_apart d fs ->
    reachable_renaming_apart d (snd (create_share_token e fuel d p theme fs))
| apart_revoke fs e p :
    reachable_renaming_apart d fs ->
    reachable_renaming_apart d (snd (revoke_share_token e d p fs))
| apart_update fs e old_path new_path :
    reachable_renaming_apart d fs ->
    new_path = old_path \/ not_shared fs d new_path ->
    reachable_renaming_apart d (snd (update_token_path e d old_path new_path fs)).

(** The invariant behind "one token per path": no path has two records. *)
Definition one_record_per_path (d : string) (fs : FS) : Prop :=
  forall t, load_tokens fs d = Ret t -> forall p, count_path p t <= 1.

(** A token as [generate_token()] makes it: 16 symbols of the alphabet. *)
Definition token_ok (T : string) : Prop :=
  String.length T = 16 /\
  Forall (fun c => url_safe c = true) (list_ascii_of_string T).

(** The tokens of a table are pairwise distinct and all of that shape. *)
Definition tokens_ok (t : Table) : Prop :=
  unique_keys t = true /\ Forall token_ok (keys t).


(** ** Concrete inputs *)

(** An empty data directory, an environment in which the write succeeds,
    and the directory after a first
    [create_share_token(d, "notes/a.md", "dark")]. *)
Definition fs_empty : FS := mkFS (fun p => p) (fun _ => Absent).

Definition env_ok : Env :=
  mkEnv (fun i => i) "2024-01-15T10:30:00+00:00" Written.

Definition fs_a_dark : FS :=
  snd (create_share_token env_ok 0 "data" "notes/a.md" "dark" fs_empty).

(** Two notes shared, then the first renamed to a free path. *)
Definition fs_a_b : FS :=
  snd (create_share_token env_ok 1 "data" "notes/b.md" "light" fs_a_dark).

Definition fs_c_b : FS :=
  snd (update_token_path env_ok "data" "notes/a.md" "notes/c.md" fs_a_b).

(** The same two notes, the first renamed onto the path of the second. *)
Definition fs_b_b : FS :=
  snd (update_token_path env_ok "data" "notes/a.md" "notes/b.md" fs_a_b).

(** A table with two records of one path, the second without a theme. *)
Definition table_two_for_a : Table :=
  [("AAAAaaaa00001111",
    [("path", PyStr "notes/a.md"); ("theme", PyStr "dark")]);
   ("BBBBbbbb22223333", [("path", PyStr "notes/a.md")])].

Definition fs_two_for_a : FS :=
  fs_put fs_empty (get_tokens_file_path "data") (Holds (Json table_two_for_a)).


(** The same two records, the one without a theme first. *)
Definition table_themeless_first : Table :=
  [("BBBBbbbb22223333", [("path", PyStr "notes/a.md")]);
   ("AAAAaaaa00001111",
    [("path", PyStr "notes/a.md"); ("theme", PyStr "dark")])].

Definition fs_themeless_first : FS :=
  fs_put fs_empty (get_tokens_file_path "data")
    (Holds (Json table_themeless_first)).

(** A table whose only record, of path notes/a.md, has the empty string as
    its token; and a tokens file that is not valid UTF-8. *)
Definition table_empty_token : Table :=
  [("", [("path", PyStr "notes/a.md"); ("theme", PyStr "light")])].

Definition fs_empty_token : FS :=
  fs_put fs_empty (get_tokens_file_path "data")
    (Holds (Json table_empty_token)).

Definition fs_not_utf8 : FS :=
  fs_put fs_empty (get_tokens_file_path "data") (Holds (Garbled NotUtf8)).


Definition fs_unreadable : FS :=
  fs_put fs_empty (get_tokens_file_path "data") Unreadable.


Definition env_refused : Env :=
  mkEnv (fun i => i) "2024-01-15T10:30:00+00:00" Refused.

(** * Lemmas on strings and dicts *)

Lemma length_string_of_list_ascii (l : list ascii) :
  String.length (string_of_list_ascii l) = List.length l.
Proof.
  induction l as [|c l IH]; simpl; [reflexivity | now rewrite IH].
Qed.

Lemma get_In (s : string) : forall (n : nat) (c : ascii),
  String.get n s = Some c -> In c (list_ascii_of_string s).
Proof.
  induction s as [|a s IH]; intros n c H; simpl in *.
  - discriminate.
  - destruct n as [|n].
    + injection H as ->. now left.
    + right. eapply IH. eassumption.
Qed.

Lemma get_below (s : string) : forall n : nat,
  n < String.length s -> String.get n s <> None.
Proof.
  induction s as [|a s IH]; intros n H; simpl in *.
  - lia.
  - destruct n as [|n]; [discriminate | apply IH; lia].
Qed.

Lemma choice_In (s : string) (raw : nat) :
  s <> "" -> In (choice s raw) (list_ascii_of_string s).
Proof.
  intros Hs. unfold choice, randbelow.
  destruct (String.get (raw mod String.length s) s) as [c|] eqn:E.
  - eapply get_In. eassumption.
  - exfalso. revert E. apply get_below.
    apply Nat.mod_upper_bound. destruct s; [congruence | simpl; lia].
Qed.

Lemma alphabet_url_safe (c : ascii) :
  existsb (Ascii.eqb c) (list_ascii_of_string alphabet) = url_safe c.
Proof.
  destruct c as [[] [] [] [] [] [] [] []]; reflexivity.
Qed.

Section DictLemmas.
Context {V : Type}.
Implicit Types (d : dict V) (k : string) (v : V).

Lemma dict_get_In k v d : dict_get k d = Some v -> In (k, v) d.
Proof.
  induction d as [|[k' v'] d IH]; simpl; [discriminate|].
  destruct (String.eqb_spec k' k) as [->|_].
  - intros [= ->]. now left.
  - intros H. right. now apply IH.
Qed.

Lemma dict_get_app k d1 d2 :
  dict_get k (d1 ++ d2)%list =
  match dict_get k d1 with Some v => Some v | None => dict_get k d2 end.
Proof.
  induction d1 as [|[k' v'] d1 IH]; simpl; [reflexivity|].
  now destruct (k' =? k).
Qed.

Lemma dict_get_set_same k v d : dict_get k (dict_set k v d) = Some v.
Proof.
  induction d as [|[k' v'] d IH]; simpl.
  - now rewrite String.eqb_refl.
  - destruct (k' =? k) eqn:E; simpl.
    + now rewrite String.eqb_refl.
    + now rewrite E.
Qed.

Lemma dict_get_set_other k k' v d :
  k' <> k -> dict_get k' (dict_set k v d) = dict_get k' d.
Proof.
  intros Hne. induction d as [|[k0 v0] d IH]; simpl.
  - destruct (String.eqb_spec k k'); [congruence | reflexivity].
  - destruct (String.eqb_spec k0 k) as [->|Hk]; simpl.
    + destruct (String.eqb_spec k k'); [congruence | reflexivity].
    + now rewrite IH.
Qed.

Lemma dict_set_fresh k v d :
  dict_contains k d = false -> dict_set k v d = (d ++ [(k, v)])%list.
Proof.
  unfold dict_contains.
  induction d as [|[k' v'] d IH]; simpl; [reflexivity|].
  destruct (k' =? k); [discriminate|].
  intros H. now rewrite IH.
Qed.

Lemma unique_keys_In_get k v d :
  unique_keys d = true -> In (k, v) d -> dict_get k d = Some v.
Proof.
  induction d as [|[k' v'] d IH]; simpl; [contradiction|].
  intros Hu [Heq | Hin].
  - injection Heq as -> ->. now rewrite String.eqb_refl.
  - apply andb_true_iff in Hu as [Hk Hu].
    destruct (String.eqb_spec k' k) as [->|_].
    + unfold dict_contains in Hk.
      rewrite (IH Hu Hin) in Hk. discriminate.
    + now apply IH.
Qed.
End DictLemmas.

(** * Lemmas on the file system *)

Lemma parts_eqb_refl (l : list string) : parts_eqb l l = true.
Proof.
  induction l as [|x l IH]; simpl; [reflexivity|].
  now rewrite String.eqb_refl.
Qed.

Lemma Path_eqb_refl (p : Path) : Path_eqb p p = true.
Proof.
  unfold Path_eqb. now rewrite String.eqb_refl, parts_eqb_refl.
Qed.

Lemma fs_put_same (fs : FS) (p : Path) (f : File) :
  file_at (fs_put fs p f) p = f.
Proof.
  unfold file_at, fs_put. simpl. now rewrite Path_eqb_refl.
Qed.

Lemma load_tokens_put (fs : FS) (d : string) (c : Content) :
  load_tokens (fs_put fs (get_tokens_file_path d) (Holds c)) d =
  match c with
  | Json t => Ret t
  | Garbled NotJson => Ret []
  | Garbled NotUtf8 => Raise UnicodeDecodeError
  end.
Proof.
  unfold load_tokens, exists_, open_json_load.
  rewrite fs_put_same. now destruct c as [t|[]].
Qed.

(** [load_tokens] returns the table of the file or the empty table. *)
Lemma load_tokens_Ret (fs : FS) (d : string) (t : Table) :
  load_tokens fs d = Ret t ->
  file_at fs (get_tokens_file_path d) = Holds (Json t) \/ t = [].
Proof.
  unfold load_tokens, exists_, open_json_load.
  destruct (file_at fs (get_tokens_file_path d)) as [| | |[t'|[]]]; simpl;
    intros [= <-]; auto.
Qed.

Lemma load_tokens_not_Diverge (fs : FS) (d : string) :
  load_tokens fs d <> Diverge.
Proof.
  unfold load_tokens, exists_, open_json_load.
  destruct (file_at fs (get_tokens_file_path d)) as [| | |[t'|[]]]; simpl; discriminate.
Qed.

Lemma save_tokens_cases (e : Env) (d : string) (t : Table) (fs : FS) :
  (write e = Written /\
   save_tokens e d t fs = (true, fs_put fs (get_tokens_file_path d) (Holds (Json t))))
  \/ (write e = Refused /\ save_tokens e d t fs = (false, fs))
  \/ (exists j, write e = Torn j /\
      save_tokens e d t fs =
      (false, fs_put fs (get_tokens_file_path d) (Holds (Garbled j)))).
Proof.
  unfold save_tokens. destruct (write e) as [| |j]; eauto.
Qed.

(** * Lemmas on the scans *)

Lemma path_is_true (p : string) (info : Record_) :
  path_is p info = true -> get info "path" PyNone = PyStr p.
Proof.
  unfold path_is, eq_str.
  destruct (get info "path" PyNone); try discriminate.
  intros H. apply String.eqb_eq in H. now subst.
Qed.

Lemma path_is_set (q new_path : string) (info : Record_) :
  path_is q (dict_set "path" (PyStr new_path) info) = (new_path =? q).
Proof.
  unfold path_is, get. now rewrite dict_get_set_same.
Qed.

Lemma path_is_new_record (q : string) (e : Env) (p theme : string) :
  path_is q (new_record e p theme) = (p =? q).
Proof. reflexivity. Qed.

Lemma count_path_app (p : string) (t1 t2 : Table) :
  count_path p (t1 ++ t2)%list = count_path p t1 + count_path p t2.
Proof.
  unfold count_path. now rewrite filter_app, length_app.
Qed.

Lemma count_path_cons (p : string) (T : string) (info : Record_) (t : Table) :
  count_path p ((T, info) :: t) =
  (if path_is p info then 1 else 0) + count_path p t.
Proof.
  unfold count_path. simpl. now destruct (path_is p info).
Qed.

Lemma first_match_None_count (p : string) (t : Table) :
  first_match p t = None <-> count_path p t = 0.
Proof.
  unfold first_match.
  induction t as [|[T info] t IH]; [now split|].
  rewrite count_path_cons. simpl.
  destruct (path_is p info); simpl.
  - split; [discriminate | lia].
  - exact IH.
Qed.

Lemma first_match_split (p : string) (t : Table) (T : string) (info : Record_) :
  first_match p t = Some (T, info) ->
  exists pre post,
    t = (pre ++ (T, info) :: post)%list /\
    path_is p info = true /\ first_match p pre = None.
Proof.
  unfold first_match.
  induction t as [|[T' info'] t IH]; simpl; [discriminate|].
  destruct (path_is p info') eqn:E.
  - intros [= -> ->]. now exists [], t.
  - intros H. destruct (IH H) as (pre & post & -> & Hp & Hpre).
    exists ((T', info') :: pre), post. simpl. now rewrite E.
Qed.

Lemma first_match_app (p : string) (pre post : Table) :
  first_match p pre = None ->
  first_match p (pre ++ post)%list = first_match p post.
Proof.
  unfold first_match.
  induction pre as [|[T info] pre IH]; simpl; [reflexivity|].
  destruct (path_is p info); [discriminate | exact IH].
Qed.

Lemma set_first_path_None (old_path new_path : string) (t : Table) :
  set_first_path old_path new_path t = None <-> first_match old_path t = None.
Proof.
  unfold first_match.
  induction t as [|[T info] t IH]; simpl; [now split|].
  destruct (path_is old_path info); [now split|].
  destruct (set_first_path old_path new_path t); simpl.
  - split; [discriminate|]. intros H. apply IH in H. discriminate.
  - split; [|reflexivity]. intros _. now apply IH.
Qed.

(** The table after the loop of [update_token_path]: one record changed,
    in place, and only in its [path]. *)
Lemma set_first_path_split (old_path new_path : string) (t t' : Table) :
  set_first_path old_path new_path t = Some t' ->
  exists pre T info post,
    t = (pre ++ (T, info) :: post)%list /\
    t' = (pre ++ (T, dict_set "path" (PyStr new_path) info) :: post)%list /\
    path_is old_path info = true /\ first_match old_path pre = None.
Proof.
  revert t'. unfold first_match.
  induction t as [|[T info] t IH]; simpl; intros t'; [discriminate|].
  destruct (path_is old_path info) eqn:E.
  - intros [= <-]. now exists [], T, info, t.
  - destruct (set_first_path old_path new_path t) as [t0|]; simpl;
      [|discriminate].
    intros [= <-].
    destruct (IH t0 eq_refl) as (pre & T0 & info0 & post & -> & -> & Hp & Hpre).
    exists ((T, info) :: pre), T0, info0, post. simpl. now rewrite E.
Qed.

Lemma count_path_dict_del (p T : string) (t : Table) :
  count_path p (dict_del T t) <= count_path p t.
Proof.
  unfold dict_del.
  induction t as [|[T' info] t IH]; simpl; [lia|].
  destruct (negb (T' =? T)); rewrite ?count_path_cons; lia.
Qed.

Lemma count_path_In (p T : string) (info : Record_) (t : Table) :
  In (T, info) t -> path_is p info = true -> 1 <= count_path p t.
Proof.
  intros Hin Hp. unfold count_path.
  assert (H : In (T, info) (filter (fun kv => path_is p (snd kv)) t))
    by (apply filter_In; auto).
  destruct (filter _ t); [contradiction | simpl; lia].
Qed.

(** Where records are counted once per path, two tokens of one path are the
    same token. *)
Lemma count_path_at_most_one (t : Table) :
  (forall p, count_path p t <= 1) -> at_most_one_token t.
Proof.
  intros Hc p T1 T2 i1 i2 H1 H2 P1 P2.
  apply dict_get_In in H1, H2.
  specialize (Hc p). unfold count_path in Hc.
  assert (F1 : In (T1, i1) (filter (fun kv => path_is p (snd kv)) t))
    by (apply filter_In; auto).
  assert (F2 : In (T2, i2) (filter (fun kv => path_is p (snd kv)) t))
    by (apply filter_In; auto).
  destruct (filter _ t) as [|x [|y l]]; simpl in *; try lia; try contradiction.
  destruct F1 as [E1|[]], F2 as [E2|[]]. congruence.
Qed.

Lemma regenerate_fresh (fuel : nat) (t : Table) :
  forall (token : string) (rng : nat -> nat) (token' : string),
    regenerate fuel t token rng = Some token' ->
    dict_contains token' t = false.
Proof.
  induction fuel as [|fuel IH]; intros token rng token'; simpl;
    destruct (dict_contains token t) eqn:E; try discriminate;
    try (intros [= <-]; exact E).
  apply IH.
Qed.

(** * Lemmas on the operations *)

Lemma generate_token_length (n : Z) (rng : nat -> nat) :
  String.length (fst (generate_token n rng)) = Z.to_nat n.
Proof.
  unfold generate_token. simpl.
  now rewrite length_string_of_list_ascii, length_map, length_seq.
Qed.

(** A path that is shared already: the call returns its first token and
    writes nothing. *)
Lemma create_share_token_shared e fuel d p theme fs t T info :
  load_tokens fs d = Ret t ->
  first_match p t = Some (T, info) ->
  create_share_token e fuel d p theme fs = (Ret (Some T), fs).
Proof.
  intros Hl Hm. unfold create_share_token. now rewrite Hl, Hm.
Qed.

(** A path that is not shared yet: unless the regeneration loop is still
    running, a token that is not a key of the table is chosen, its record
    is put last and the table is saved. *)
Lemma create_share_token_fresh e fuel d p theme fs t :
  load_tokens fs d = Ret t ->
  first_match p t = None ->
  create_share_token e fuel d p theme fs = (Diverge, fs) \/
  exists T,
    dict_contains T t = false /\
    create_share_token e fuel d p theme fs =
    (let (saved, fs') :=
       save_tokens e d (t ++ [(T, new_record e p theme)])%list fs in
     if saved then (Ret (Some T), fs') else (Ret None, fs')).
Proof.
  intros Hl Hm. unfold create_share_token. rewrite Hl, Hm.
  destruct (generate_token generate_token_default_length (rand e))
    as [token rng].
  destruct (regenerate fuel t token rng) as [T|] eqn:R; [right | now left].
  exists T. pose proof (regenerate_fresh _ _ _ _ _ R) as HT.
  split; [exact HT|].
  now rewrite (dict_set_fresh _ _ _ HT).
Qed.

Lemma dict_contains_false_get {V : Type} (k : string) (d : dict V) :
  dict_contains k d = false -> dict_get k d = None.
Proof.
  unfold dict_contains. now destruct (dict_get k d).
Qed.

(** Two calls in a row for a path that was not shared: the second call, in
    any environment and with any theme, returns the token of the first and
    the theme of the first call stays. *)
Lemma create_share_token_twice e1 fuel1 d p theme1 fs t T :
  load_tokens fs d = Ret t ->
  first_match p t = None ->
  fst (create_share_token e1 fuel1 d p theme1 fs) = Ret (Some T) ->
  forall e2 fuel2 theme2,
    create_share_token e2 fuel2 d p theme2
      (snd (create_share_token e1 fuel1 d p theme1 fs)) =
    (Ret (Some T), snd (create_share_token e1 fuel1 d p theme1 fs)) /\
    get_note_by_token (snd (create_share_token e1 fuel1 d p theme1 fs)) d T =
    Ret (Some [("path", PyStr p); ("theme", PyStr theme1)]).
Proof.
  intros Hl Hm Hr e2 fuel2 theme2.
  destruct (create_share_token_fresh e1 fuel1 d p theme1 fs t Hl Hm)
    as [E | (T' & HT' & E)]; rewrite E in Hr |- *; [discriminate|].
  destruct (save_tokens_cases e1 d (t ++ [(T', new_record e1 p theme1)])%list fs)
    as [(_ & S) | [(_ & S) | (j & _ & S)]]; rewrite S in Hr |- *;
    simpl in Hr; try discriminate.
  injection Hr as ->. simpl. split.
  - eapply create_share_token_shared.
    + rewrite load_tokens_put. reflexivity.
    + rewrite first_match_app by assumption.
      unfold first_match. simpl. rewrite path_is_new_record.
      now rewrite String.eqb_refl.
  - unfold get_note_by_token. rewrite load_tokens_put. simpl.
    rewrite dict_get_app, (dict_contains_false_get _ _ HT'). simpl.
    now rewrite String.eqb_refl.
Qed.

(** * The claims *)

(** C9. For every length [n], [generate_token n] returns a string of exactly
    [n] characters, each of them one of the 64 symbols A-Z, a-z, 0-9,
    underscore and hyphen; the default length is 16. *)
Theorem generate_token_alphabet (n : nat) (rng : nat -> nat) :
  let token := fst (generate_token (Z.of_nat n) rng) in
  String.length token = n /\
  Forall (fun c => url_safe c = true) (list_ascii_of_string token) /\
  String.length alphabet = 64 /\
  NoDup (list_ascii_of_string alphabet) /\
  (forall c, In c (list_ascii_of_string alphabet) <-> url_safe c = true) /\
  generate_token_default_length = 16%Z.
Proof.
  assert (Halpha : forall c,
             In c (list_ascii_of_string alphabet) <-> url_safe c = true).
  { intros c. rewrite <- alphabet_url_safe, existsb_exists. split.
    - intros H. exists c. split; [exact H | apply Ascii.eqb_refl].
    - intros (x & Hx & E). apply Ascii.eqb_eq in E. now subst. }
  cbv zeta. repeat split; try apply Halpha; try reflexivity.
  - now rewrite generate_token_length, Nat2Z.id.
  - unfold generate_token. simpl.
    rewrite list_ascii_of_string_of_list_ascii.
    apply Forall_forall. intros c Hc.
    apply in_map_iff in Hc as (i & <- & _).
    apply Halpha, choice_In. discriminate.
  - apply (NoDup_count_occ' ascii_dec). intros c Hc.
    apply Halpha in Hc. revert Hc.
    destruct c as [[] [] [] [] [] [] [] []]; vm_compute;
      first [reflexivity | discriminate].
Qed.




(** C3. When the table has a record for [p], [create_share_token d p theme2]
    returns the token of that record (the first one, the token that
    [get_share_token] reports) whatever [theme2] is, and the file system is
    left as it was: the stored theme is not touched. *)
Theorem create_share_token_idempotent fs d p t :
  load_tokens fs d = Ret t ->
  (exists T0 info0, In (T0, info0) t /\ path_is p info0 = true) ->
  exists T info,
    first_match p t = Some (T, info) /\
    get_share_token fs d p = Ret (Some T) /\
    forall e fuel theme2,
      create_share_token e fuel d p theme2 fs = (Ret (Some T), fs) /\
      get_share_info (snd (create_share_token e fuel d p theme2 fs)) d p =
      Ret [("token", PyStr T);
           ("theme", get info "theme" (PyStr "light"));
           ("created", get info "created" PyNone);
           ("shared", PyBool true)].
Proof.
  intros Hl (T0 & info0 & Hin & Hp).
  destruct (first_match p t) as [[T info]|] eqn:Hm.
  - exists T, info. split; [reflexivity|]. split.
    + unfold get_share_token. now rewrite Hl; simpl; rewrite Hm.
    + intros e fuel theme2.
      rewrite (create_share_token_shared e fuel d p theme2 fs t T info Hl Hm).
      split; [reflexivity|]. simpl.
      unfold get_share_info. now rewrite Hl; simpl; rewrite Hm.
  - apply first_match_None_count in Hm.
    pose proof (count_path_In p T0 info0 t Hin Hp). lia.
Qed.

Lemma create_share_token_idempotent_witness :
  exists T info,
    first_match "notes/a.md"
      [("abcdefghijklmnop", new_record env_ok "notes/a.md" "dark")] =
    Some (T, info) /\
    get_share_token fs_a_dark "data" "notes/a.md" = Ret (Some T) /\
    forall e fuel theme2,
      create_share_token e fuel "data" "notes/a.md" theme2 fs_a_dark =
      (Ret (Some T), fs_a_dark) /\
      get_share_info
        (snd (create_share_token e fuel "data" "notes/a.md" theme2 fs_a_dark))
        "data" "notes/a.md" =
      Ret [("token", PyStr T);
           ("theme", get info "theme" (PyStr "light"));
           ("created", get info "created" PyNone);
           ("shared", PyBool true)].
Proof.
  apply (create_share_token_idempotent fs_a_dark "data" "notes/a.md"
           [("abcdefghijklmnop", new_record env_ok "notes/a.md" "dark")]).
  - reflexivity.
  - exists "abcdefghijklmnop", (new_record env_ok "notes/a.md" "dark").
    split; [now left | reflexivity].
Defined.

(** ** What a mutating call leaves on disk *)

Lemma create_share_token_fs e fuel d p theme fs :
  snd (create_share_token e fuel d p theme fs) = fs \/
  exists t T,
    load_tokens fs d = Ret t /\ first_match p t = None /\
    dict_contains T t = false /\
    snd (create_share_token e fuel d p theme fs) =
    snd (save_tokens e d (t ++ [(T, new_record e p theme)])%list fs).
Proof.
  destruct (load_tokens fs d) as [t| |] eqn:Hl;
    try (left; unfold create_share_token; now rewrite Hl).
  destruct (first_match p t) as [[T info]|] eqn:Hm.
  - left. now rewrite (create_share_token_shared _ _ _ _ _ _ _ _ _ Hl Hm).
  - destruct (create_share_token_fresh e fuel d p theme fs t Hl Hm)
      as [E | (T & HT & E)]; rewrite E; [now left | right].
    exists t, T. repeat split; try assumption.
    now destruct (save_tokens e d (t ++ [(T, new_record e p theme)])%list fs)
      as [[] fs'].
Qed.

Lemma revoke_share_token_fs e d p fs :
  snd (revoke_share_token e d p fs) = fs \/
  exists t T info,
    load_tokens fs d = Ret t /\ first_match p t = Some (T, info) /\
    snd (revoke_share_token e d p fs) =
    snd (save_tokens e d (dict_del T t) fs).
Proof.
  unfold revoke_share_token.
  destruct (load_tokens fs d) as [t| |] eqn:Hl; try now left.
  destruct (first_match p t) as [[T info]|] eqn:Hm; [|now left].
  destruct (truthy (PyStr T)); [right | now left].
  exists t, T, info. repeat split; try assumption.
  now destruct (save_tokens e d (dict_del T t) fs).
Qed.

Lemma update_token_path_fs e d old_path new_path fs :
  snd (update_token_path e d old_path new_path fs) = fs \/
  exists t t',
    load_tokens fs d = Ret t /\
    set_first_path old_path new_path t = Some t' /\
    snd (update_token_path e d old_path new_path fs) =
    snd (save_tokens e d t' fs).
Proof.
  unfold update_token_path.
  destruct (load_tokens fs d) as [t| |] eqn:Hl; try now left.
  destruct (set_first_path old_path new_path t) as [t'|] eqn:Hs; [|now left].
  right. exists t, t'. repeat split; try assumption.
  now destruct (save_tokens e d t' fs).
Qed.

(** ** One record per path *)

Lemma one_record_per_path_save e d t' fs :
  one_record_per_path d fs ->
  (forall p, count_path p t' <= 1) ->
  one_record_per_path d (snd (save_tokens e d t' fs)).
Proof.
  intros Hfs Ht'.
  destruct (save_tokens_cases e d t' fs)
    as [(_ & S) | [(_ & S) | (j & _ & S)]]; rewrite S; simpl.
  - intros t. rewrite load_tokens_put. now intros [= <-].
  - exact Hfs.
  - intros t. rewrite load_tokens_put.
    destruct j; [intros [= <-] p; cbn; lia | discriminate].
Qed.

Lemma not_shared_first_match fs d new_path t :
  not_shared fs d new_path -> load_tokens fs d = Ret t ->
  first_match new_path t = None.
Proof.
  intros Hn Hl. unfold not_shared, get_share_token in Hn.
  rewrite Hl in Hn. simpl in Hn.
  destruct (first_match new_path t) as [[T info]|]; [|reflexivity].
  now destruct (Hn T).
Qed.

Lemma one_record_per_path_reachable d fs :
  reachable_renaming_apart d fs -> one_record_per_path d fs.
Proof.
  induction 1 as [fs Hl | fs e fuel p theme _ IH | fs e p _ IH
                 | fs e old_path new_path _ IH Hguard].
  - intros t Ht p. rewrite Hl in Ht. injection Ht as <-. cbn. lia.
  - destruct (create_share_token_fs e fuel d p theme fs)
      as [-> | (t & T & Hl & Hm & _ & ->)]; [exact IH|].
    apply one_record_per_path_save; [exact IH|].
    intros q. rewrite count_path_app, count_path_cons, path_is_new_record.
    change (count_path q []) with 0.
    destruct (String.eqb_spec p q) as [<-|_].
    + apply first_match_None_count in Hm. lia.
    + specialize (IH t Hl q). lia.
  - destruct (revoke_share_token_fs e d p fs)
      as [-> | (t & T & info & Hl & _ & ->)]; [exact IH|].
    apply one_record_per_path_save; [exact IH|].
    intros q. specialize (IH t Hl q).
    pose proof (count_path_dict_del q T t). lia.
  - destruct (update_token_path_fs e d old_path new_path fs)
      as [-> | (t & t' & Hl & Hs & ->)]; [exact IH|].
    apply one_record_per_path_save; [exact IH|].
    destruct (set_first_path_split _ _ _ _ Hs)
      as (pre & T & info & post & Ht & -> & Hp & _).
    intros q. specialize (IH t Hl) as Hq.
    specialize (Hq q) as Hcq. rewrite Ht in Hcq.
    rewrite count_path_app, count_path_cons in Hcq |- *.
    rewrite path_is_set.
    destruct (String.eqb_spec new_path q) as [<-|Hne];
      [|destruct (path_is q info); lia].
    destruct Hguard as [-> | Hguard].
    + now rewrite Hp in Hcq.
    + apply (not_shared_first_match _ _ _ t Hguard) in Hl.
      apply first_match_None_count in Hl.
      rewrite Ht, count_path_app, count_path_cons in Hl. lia.
Qed.

(** C2, as amended.  In every table reachable from the empty table by
    [create_share_token], [revoke_share_token] and those calls of
    [update_token_path] whose new path is not shared yet (or is the old
    path), at most one token maps to any given path. *)
Theorem one_token_per_path_when_renaming_apart d fs t :
  reachable_renaming_apart d fs ->
  load_tokens fs d = Ret t ->
  at_most_one_token t.
Proof.
  intros Hr Hl. apply count_path_at_most_one.
  exact (one_record_per_path_reachable d fs Hr t Hl).
Qed.

Lemma one_token_per_path_when_renaming_apart_witness :
  at_most_one_token
    [("abcdefghijklmnop",
      [("path", PyStr "notes/c.md"); ("theme", PyStr "dark");
       ("created", PyStr "2024-01-15T10:30:00+00:00")]);
     ("qrstuvwxyzABCDEF",
      [("path", PyStr "notes/b.md"); ("theme", PyStr "light");
       ("created", PyStr "2024-01-15T10:30:00+00:00")])].
Proof.
  apply (one_token_per_path_when_renaming_apart "data" fs_c_b).
  - apply apart_update.
    + apply apart_create. apply apart_create. apply apart_empty. reflexivity.
    + right. intros T. vm_compute. discriminate.
  - reflexivity.
Defined.

(** C2 as stated fails: after [create] for a.md, [create] for b.md and
    [update_token_path] from a.md to b.md, two tokens map to b.md. *)
Lemma rename_onto_shared_path_gives_two_tokens :
  reachable "data" fs_b_b /\
  load_tokens fs_b_b "data" =
  Ret [("abcdefghijklmnop",
        [("path", PyStr "notes/b.md"); ("theme", PyStr "dark");
         ("created", PyStr "2024-01-15T10:30:00+00:00")]);
       ("qrstuvwxyzABCDEF",
        [("path", PyStr "notes/b.md"); ("theme", PyStr "light");
         ("created", PyStr "2024-01-15T10:30:00+00:00")])] /\
  ~ (forall fs, reachable "data" fs ->
     forall t, load_tokens fs "data" = Ret t -> at_most_one_token t).
Proof.
  assert (Hr : reachable "data" fs_b_b).
  { apply reach_update. apply reach_create. apply reach_create.
    apply reach_empty. reflexivity. }
  repeat split; [exact Hr | ].
  intros H. specialize (H fs_b_b Hr _ eq_refl).
  specialize (H "notes/b.md" "abcdefghijklmnop" "qrstuvwxyzABCDEF"
                _ _ eq_refl eq_refl eq_refl eq_refl).
  discriminate.
Qed.

(** ** Revoking and renaming *)

(** When [revoke_share_token] returns [True], the first record of the path
    was deleted and the table was written. *)
Lemma revoke_share_token_true e d p fs t :
  load_tokens fs d = Ret t ->
  fst (revoke_share_token e d p fs) = Ret true ->
  exists T info,
    first_match p t = Some (T, info) /\ T <> "" /\ write e = Written /\
    snd (revoke_share_token e d p fs) =
    fs_put fs (get_tokens_file_path d) (Holds (Json (dict_del T t))).
Proof.
  intros Hl. unfold revoke_share_token. rewrite Hl.
  destruct (first_match p t) as [[T info]|]; [|discriminate].
  cbn -[String.eqb save_tokens dict_del].
  destruct (String.eqb_spec T "") as [->|Hne]; [discriminate|]. simpl negb.
  cbv iota.
  destruct (save_tokens_cases e d (dict_del T t) fs)
    as [(W & S) | [(_ & S) | (j & _ & S)]]; rewrite S; simpl;
    try discriminate.
  intros _. now exists T, info.
Qed.

(** When [update_token_path] returns [True], the table with the path of the
    first matching record replaced was written. *)
Lemma update_token_path_true e d old_path new_path fs t :
  load_tokens fs d = Ret t ->
  fst (update_token_path e d old_path new_path fs) = Ret true ->
  exists t',
    set_first_path old_path new_path t = Some t' /\ write e = Written /\
    snd (update_token_path e d old_path new_path fs) =
    fs_put fs (get_tokens_file_path d) (Holds (Json t')).
Proof.
  intros Hl. unfold update_token_path. rewrite Hl.
  destruct (set_first_path old_path new_path t) as [t'|]; [|discriminate].
  destruct (save_tokens_cases e d t' fs)
    as [(W & S) | [(_ & S) | (j & _ & S)]]; rewrite S; simpl;
    try discriminate.
  intros _. now exists t'.
Qed.

Lemma dict_del_split (T : string) (info : Record_) (pre post : Table) :
  dict_del T (pre ++ (T, info) :: post)%list =
  (dict_del T pre ++ dict_del T post)%list.
Proof.
  unfold dict_del. rewrite filter_app. simpl. now rewrite String.eqb_refl.
Qed.

(** In a table with one record of [p], the record that a token lookup finds
    with path [p] is the first match of the scan. *)
Lemma only_record_is_first_match (p T : string) (info : Record_) (t : Table) :
  count_path p t = 1 ->
  dict_get T t = Some info -> path_is p info = true ->
  exists pre post,
    t = (pre ++ (T, info) :: post)%list /\
    dict_get T pre = None /\
    count_path p pre = 0 /\ count_path p post = 0.
Proof.
  intros Hc Hg Hp.
  destruct (first_match p t) as [[T0 info0]|] eqn:Hm.
  2:{ apply first_match_None_count in Hm. lia. }
  destruct (first_match_split _ _ _ _ Hm) as (pre & post & -> & Hp0 & Hpre).
  apply first_match_None_count in Hpre.
  rewrite count_path_app, count_path_cons, Hp0 in Hc.
  assert (Hpost : count_path p post = 0) by lia.
  rewrite dict_get_app in Hg.
  destruct (dict_get T pre) as [v|] eqn:Gpre.
  - injection Hg as ->. apply dict_get_In in Gpre.
    pose proof (count_path_In _ _ _ _ Gpre Hp). lia.
  - simpl in Hg. destruct (String.eqb_spec T0 T) as [->|_].
    + injection Hg as ->. now exists pre, post.
    + apply dict_get_In in Hg.
      pose proof (count_path_In _ _ _ _ Hg Hp). lia.
Qed.

(** C4. On a table in which exactly one record has path [p], after
    [revoke_share_token d p] has returned [True], [get_share_token d p] is
    [None], [get_share_info d p] is [{shared: False}] and [p] is not in
    [get_all_shared_paths d]. *)
Theorem revoke_clears_all_views e d p fs t :
  load_tokens fs d = Ret t ->
  count_path p t = 1 ->
  fst (revoke_share_token e d p fs) = Ret true ->
  get_share_token (snd (revoke_share_token e d p fs)) d p = Ret None /\
  get_share_info (snd (revoke_share_token e d p fs)) d p =
  Ret [("shared", PyBool false)] /\
  exists paths,
    get_all_shared_paths (snd (revoke_share_token e d p fs)) d = Ret paths /\
    ~ In (PyStr p) paths.
Proof.
  intros Hl Hc Hr.
  destruct (revoke_share_token_true e d p fs t Hl Hr)
    as (T & info & Hm & _ & _ & ->).
  assert (H0 : count_path p (dict_del T t) = 0).
  { destruct (first_match_split _ _ _ _ Hm) as (pre & post & -> & Hp & _).
    rewrite count_path_app, count_path_cons, Hp in Hc.
    rewrite dict_del_split, count_path_app.
    pose proof (count_path_dict_del p T pre).
    pose proof (count_path_dict_del p T post). lia. }
  pose proof (proj2 (first_match_None_count p _) H0) as Hnone.
  unfold get_share_token, get_share_info, get_all_shared_paths.
  rewrite load_tokens_put. simpl. rewrite Hnone.
  repeat split. eexists. split; [reflexivity|].
  intros Hin. apply in_map_iff in Hin as (info' & Hpath & Hin).
  apply filter_In in Hin as [Hin _].
  apply in_map_iff in Hin as ([T' i'] & <- & Hin). simpl in Hpath.
  assert (Hp : path_is p i' = true).
  { unfold path_is. rewrite Hpath. apply String.eqb_refl. }
  pose proof (count_path_In _ _ _ _ Hin Hp). lia.
Qed.

Lemma revoke_clears_all_views_witness :
  get_share_token
    (snd (revoke_share_token env_ok "data" "notes/a.md" fs_a_b))
    "data" "notes/a.md" = Ret None /\
  get_share_info
    (snd (revoke_share_token env_ok "data" "notes/a.md" fs_a_b))
    "data" "notes/a.md" = Ret [("shared", PyBool false)] /\
  exists paths,
    get_all_shared_paths
      (snd (revoke_share_token env_ok "data" "notes/a.md" fs_a_b)) "data" =
    Ret paths /\
    ~ In (PyStr "notes/a.md") paths.
Proof.
  apply (revoke_clears_all_views env_ok "data" "notes/a.md" fs_a_b
           [("abcdefghijklmnop", new_record env_ok "notes/a.md" "dark");
            ("qrstuvwxyzABCDEF", new_record env_ok "notes/b.md" "light")]);
    reflexivity.
Defined.

(** C5, as amended.  On a table that has a record for [old_path] with
    token [T], after [update_token_path d old_path new_path] has returned
    [True]: [get_note_by_token d T] returns a record whose path is
    [new_path] when [T] is the token of the first record of [old_path] (the
    one that [get_share_token d old_path] reported), and a record whose path
    is still [old_path] otherwise; [get_share_token d old_path] is [None]
    when [old_path] differs from [new_path] and no other record has path
    [old_path]. *)
Theorem rename_preserves_first_token e d old_path new_path fs t T info :
  load_tokens fs d = Ret t ->
  dict_get T t = Some info ->
  path_is old_path info = true ->
  fst (update_token_path e d old_path new_path fs) = Ret true ->
  (get_share_token fs d old_path = Ret (Some T) ->
   get_note_by_token (snd (update_token_path e d old_path new_path fs)) d T =
   Ret (Some [("path", PyStr new_path);
              ("theme", get info "theme" (PyStr "light"))])) /\
  (get_share_token fs d old_path <> Ret (Some T) ->
   get_note_by_token (snd (update_token_path e d old_path new_path fs)) d T =
   Ret (Some [("path", PyStr old_path);
              ("theme", get info "theme" (PyStr "light"))])) /\
  (old_path <> new_path ->
   count_path old_path t = 1 ->
   get_share_token (snd (update_token_path e d old_path new_path fs))
     d old_path = Ret None).
Proof.
  intros Hl Hg Hp Hr.
  destruct (update_token_path_true e d old_path new_path fs t Hl Hr)
    as (t' & Hs & _ & ->).
  destruct (set_first_path_split _ _ _ _ Hs)
    as (pre & T0 & info0 & post & Ht & -> & Hp0 & Hpre).
  assert (Hfirst : first_match old_path t = Some (T0, info0)).
  { rewrite Ht, first_match_app by assumption.
    unfold first_match. simpl. now rewrite Hp0. }
  assert (Cpre : count_path old_path pre = 0)
    by now apply first_match_None_count.
  assert (Gpre : dict_get T pre = None).
  { destruct (dict_get T pre) as [v|] eqn:G; [|reflexivity].
    rewrite Ht, dict_get_app, G in Hg. injection Hg as ->.
    apply dict_get_In in G.
    pose proof (count_path_In _ _ _ _ G Hp). lia. }
  unfold get_share_token, get_note_by_token.
  rewrite load_tokens_put, Hl. simpl. rewrite Hfirst.
  rewrite Ht, dict_get_app, Gpre in Hg. simpl in Hg.
  rewrite !dict_get_app, Gpre. simpl.
  split; [|split].
  - intros [= ->]. rewrite String.eqb_refl in Hg |- *.
    injection Hg as ->. unfold get. rewrite dict_get_set_same.
    now rewrite dict_get_set_other by discriminate.
  - intros Hne.
    destruct (String.eqb_spec T0 T) as [->|_]; [now destruct Hne|].
    rewrite Hg. now rewrite (path_is_true _ _ Hp).
  - intros Hneq Hc.
    rewrite Ht, count_path_app, count_path_cons, Hp0 in Hc.
    assert (H0 : count_path old_path
                   (pre ++ (T0, dict_set "path" (PyStr new_path) info0)
                    :: post)%list = 0).
    { rewrite count_path_app, count_path_cons, path_is_set.
      destruct (String.eqb_spec new_path old_path); [congruence | lia]. }
    apply first_match_None_count in H0. now rewrite H0.
Qed.

Lemma rename_preserves_first_token_witness :
  (get_note_by_token fs_c_b "data" "abcdefghijklmnop" =
   Ret (Some [("path", PyStr "notes/c.md"); ("theme", PyStr "dark")]) /\
   get_share_token fs_c_b "data" "notes/a.md" = Ret None) /\
  get_note_by_token
    (snd (update_token_path env_ok "data" "notes/a.md" "notes/c.md"
            fs_two_for_a)) "data" "BBBBbbbb22223333" =
  Ret (Some [("path", PyStr "notes/a.md"); ("theme", PyStr "light")]).
Proof.
  destruct (rename_preserves_first_token env_ok "data" "notes/a.md"
              "notes/c.md" fs_a_b
              [("abcdefghijklmnop", new_record env_ok "notes/a.md" "dark");
               ("qrstuvwxyzABCDEF", new_record env_ok "notes/b.md" "light")]
              "abcdefghijklmnop" (new_record env_ok "notes/a.md" "dark")
              eq_refl eq_refl eq_refl eq_refl) as (H1 & _ & H3).
  destruct (rename_preserves_first_token env_ok "data" "notes/a.md"
              "notes/c.md" fs_two_for_a table_two_for_a
              "BBBBbbbb22223333" [("path", PyStr "notes/a.md")]
              eq_refl eq_refl eq_refl eq_refl) as (_ & H2 & _).
  split; [split|].
  - exact (H1 eq_refl).
  - apply H3; [discriminate | reflexivity].
  - apply H2. discriminate.
Defined.

(** C5 as stated fails: of two records of notes/a.md the rename changes the
    first; the token of the second still resolves to notes/a.md. *)
Lemma rename_leaves_later_record :
  dict_get "BBBBbbbb22223333" table_two_for_a =
  Some [("path", PyStr "notes/a.md")] /\
  fst (update_token_path env_ok "data" "notes/a.md" "notes/c.md"
         fs_two_for_a) = Ret true /\
  get_note_by_token
    (snd (update_token_path env_ok "data" "notes/a.md" "notes/c.md"
            fs_two_for_a)) "data" "BBBBbbbb22223333" =
  Ret (Some [("path", PyStr "notes/a.md"); ("theme", PyStr "light")]) /\
  (note <- get_note_by_token
             (snd (update_token_path env_ok "data" "notes/a.md" "notes/c.md"
                     fs_two_for_a)) "data" "BBBBbbbb22223333" ;;
   Ret (option_map (fun r => get r "path" PyNone) note)) <>
  Ret (Some (PyStr "notes/c.md")).
Proof.
  repeat split. vm_compute. discriminate.
Qed.

Lemma keys_dict_set_present {V : Type} (k : string) (v v0 : V) (d : dict V) :
  dict_get k d = Some v0 -> keys (dict_set k v d) = keys d.
Proof.
  unfold keys.
  induction d as [|[k' v'] d IH]; simpl; [discriminate|].
  destruct (String.eqb_spec k' k) as [->|_]; simpl; [reflexivity|].
  intros H. now rewrite IH.
Qed.

Lemma path_is_has_path (p : string) (info : Record_) :
  path_is p info = true -> dict_get "path" info = Some (PyStr p).
Proof.
  intros H. pose proof (path_is_true p info H) as G. revert H G.
  unfold path_is, get. destruct (dict_get "path" info); [|discriminate].
  now intros _ ->.
Qed.

(** C10. After a successful [update_token_path], the persisted table is the
    loaded one with exactly one change: the first record matching
    [old_path] has [new_path] under its key "path".  The record keeps its
    token, its place and its other fields (theme and created among them),
    and all other records are the same as before. *)
Theorem update_token_path_frame e d old_path new_path fs t :
  load_tokens fs d = Ret t ->
  fst (update_token_path e d old_path new_path fs) = Ret true ->
  exists pre T info post t',
    t = (pre ++ (T, info) :: post)%list /\
    first_match old_path t = Some (T, info) /\
    t' = (pre ++ (T, dict_set "path" (PyStr new_path) info) :: post)%list /\
    load_tokens (snd (update_token_path e d old_path new_path fs)) d =
    Ret t' /\
    dict_get "path" (dict_set "path" (PyStr new_path) info) =
    Some (PyStr new_path) /\
    dict_get "theme" (dict_set "path" (PyStr new_path) info) =
    dict_get "theme" info /\
    dict_get "created" (dict_set "path" (PyStr new_path) info) =
    dict_get "created" info /\
    (forall k, k <> "path" ->
       dict_get k (dict_set "path" (PyStr new_path) info) = dict_get k info) /\
    keys (dict_set "path" (PyStr new_path) info) = keys info /\
    keys t' = keys t /\
    (forall T', T' <> T -> dict_get T' t' = dict_get T' t).
Proof.
  intros Hl Hr.
  destruct (update_token_path_true e d old_path new_path fs t Hl Hr)
    as (t' & Hs & _ & ->).
  destruct (set_first_path_split _ _ _ _ Hs)
    as (pre & T & info & post & Ht & Ht' & Hp & Hpre).
  exists pre, T, info, post, t'.
  repeat match goal with |- _ /\ _ => split end; try assumption.
  - rewrite Ht, first_match_app by assumption.
    unfold first_match. simpl. now rewrite Hp.
  - now rewrite load_tokens_put.
  - apply dict_get_set_same.
  - apply dict_get_set_other. discriminate.
  - apply dict_get_set_other. discriminate.
  - intros k Hk. now apply dict_get_set_other.
  - eapply keys_dict_set_present, path_is_has_path. eassumption.
  - subst t t'. unfold keys. now rewrite !map_app.
  - intros T' Hne. subst t t'. rewrite !dict_get_app. simpl.
    destruct (dict_get T' pre); [reflexivity|].
    destruct (String.eqb_spec T T'); [congruence | reflexivity].
Qed.

Lemma update_token_path_frame_witness :
  exists pre T info post t',
    [("abcdefghijklmnop", new_record env_ok "notes/a.md" "dark");
     ("qrstuvwxyzABCDEF", new_record env_ok "notes/b.md" "light")] =
    (pre ++ (T, info) :: post)%list /\
    first_match "notes/a.md"
      [("abcdefghijklmnop", new_record env_ok "notes/a.md" "dark");
       ("qrstuvwxyzABCDEF", new_record env_ok "notes/b.md" "light")] =
    Some (T, info) /\
    t' = (pre ++ (T, dict_set "path" (PyStr "notes/c.md") info) :: post)%list /\
    load_tokens fs_c_b "data" = Ret t' /\
    dict_get "path" (dict_set "path" (PyStr "notes/c.md") info) =
    Some (PyStr "notes/c.md") /\
    dict_get "theme" (dict_set "path" (PyStr "notes/c.md") info) =
    dict_get "theme" info /\
    dict_get "created" (dict_set "path" (PyStr "notes/c.md") info) =
    dict_get "created" info /\
    (forall k, k <> "path" ->
       dict_get k (dict_set "path" (PyStr "notes/c.md") info) =
       dict_get k info) /\
    keys (dict_set "path" (PyStr "notes/c.md") info) = keys info /\
    keys t' =
    keys [("abcdefghijklmnop", new_record env_ok "notes/a.md" "dark");
          ("qrstuvwxyzABCDEF", new_record env_ok "notes/b.md" "light")] /\
    (forall T', T' <> T ->
       dict_get T' t' =
       dict_get T'
         [("abcdefghijklmnop", new_record env_ok "notes/a.md" "dark");
          ("qrstuvwxyzABCDEF", new_record env_ok "notes/b.md" "light")]).
Proof.
  apply (update_token_path_frame env_ok "data" "notes/a.md" "notes/c.md"
           fs_a_b); reflexivity.
Defined.

(** ** The default theme *)

(** C8, as amended.  For every token whose stored record omits the theme,
    [get_note_by_token] resolves the theme to "light", and [get_share_info]
    for the path of that record reports the theme "light" when that record
    is the first record of the path in the table. *)
Theorem default_theme_is_light fs d t T info :
  load_tokens fs d = Ret t ->
  dict_get T t = Some info ->
  dict_get "theme" info = None ->
  get_note_by_token fs d T =
  Ret (Some [("path", get info "path" PyNone); ("theme", PyStr "light")]) /\
  forall p,
    first_match p t = Some (T, info) ->
    get_share_info fs d p =
    Ret [("token", PyStr T); ("theme", PyStr "light");
         ("created", get info "created" PyNone); ("shared", PyBool true)].
Proof.
  intros Hl Hg Hth.
  unfold get_note_by_token, get_share_info. rewrite Hl. simpl.
  rewrite Hg. unfold get. rewrite Hth. split; [reflexivity|].
  intros p Hm. now rewrite Hm, Hth.
Qed.

Lemma default_theme_is_light_witness :
  get_note_by_token fs_themeless_first "data" "BBBBbbbb22223333" =
  Ret (Some [("path", PyStr "notes/a.md"); ("theme", PyStr "light")]) /\
  get_share_info fs_themeless_first "data" "notes/a.md" =
  Ret [("token", PyStr "BBBBbbbb22223333"); ("theme", PyStr "light");
       ("created", PyNone); ("shared", PyBool true)].
Proof.
  destruct (default_theme_is_light fs_themeless_first "data"
              table_themeless_first "BBBBbbbb22223333"
              [("path", PyStr "notes/a.md")] eq_refl eq_refl eq_refl)
    as [H1 H2].
  split; [exact H1 | exact (H2 "notes/a.md" eq_refl)].
Defined.

(** C8 as stated fails: the second record omits its theme, and
    [get_share_info] for its path reports "dark", the theme of the first
    record of that path. *)
Lemma share_info_reads_first_record :
  load_tokens fs_two_for_a "data" = Ret table_two_for_a /\
  dict_get "BBBBbbbb22223333" table_two_for_a =
  Some [("path", PyStr "notes/a.md")] /\
  get_note_by_token fs_two_for_a "data" "BBBBbbbb22223333" =
  Ret (Some [("path", PyStr "notes/a.md"); ("theme", PyStr "light")]) /\
  get_share_info fs_two_for_a "data" "notes/a.md" =
  Ret [("token", PyStr "AAAAaaaa00001111"); ("theme", PyStr "dark");
       ("created", PyNone); ("shared", PyBool true)] /\
  (r <- get_share_info fs_two_for_a "data" "notes/a.md" ;;
   Ret (get r "theme" PyNone)) <> Ret (PyStr "light").
Proof.
  repeat split. vm_compute. discriminate.
Qed.

(** ** What [revoke_share_token] returns *)

(** On a table that loads and has no empty token, the call returns, and it
    returns [True] exactly when a record of the path was found and the save
    succeeded. *)
Lemma revoke_share_token_true_iff e d p fs t :
  load_tokens fs d = Ret t ->
  (exists b, fst (revoke_share_token e d p fs) = Ret b) /\
  (fst (revoke_share_token e d p fs) = Ret true <->
   exists T info,
     first_match p t = Some (T, info) /\ T <> "" /\ write e = Written).
Proof.
  intros Hl. split.
  - unfold revoke_share_token. rewrite Hl.
    destruct (first_match p t) as [[T info]|]; [|now exists false].
    cbn -[String.eqb save_tokens dict_del].
    destruct (negb (T =? "")); [|now exists false].
    destruct (save_tokens e d (dict_del T t) fs) as [saved fs'].
    now exists saved.
  - split.
    + intros Hr.
      destruct (revoke_share_token_true e d p fs t Hl Hr)
        as (T & info & Hm & Hne & W & _).
      now exists T, info.
    + intros (T & info & Hm & Hne & W).
      unfold revoke_share_token, save_tokens. rewrite Hl, Hm, W.
      cbn -[String.eqb dict_del].
      now destruct (String.eqb_spec T "").
Qed.

(** C6 at its failing inputs.  With the empty token, the scan finds the
    record of the path and a save would succeed, yet the call returns
    [False] and the record stays; on a file that is not UTF-8 the call
    raises [UnicodeDecodeError]. *)
Theorem revoke_share_token_misses :
  (load_tokens fs_empty_token "data" = Ret table_empty_token /\
   first_match "notes/a.md" table_empty_token =
   Some ("", [("path", PyStr "notes/a.md"); ("theme", PyStr "light")]) /\
   fst (save_tokens env_ok "data" (dict_del "" table_empty_token)
          fs_empty_token) = true /\
   fst (revoke_share_token env_ok "data" "notes/a.md" fs_empty_token) =
   Ret false /\
   get_share_token
     (snd (revoke_share_token env_ok "data" "notes/a.md" fs_empty_token))
     "data" "notes/a.md" = Ret (Some "")) /\
  fst (revoke_share_token env_ok "data" "notes/a.md" fs_not_utf8) =
  Raise UnicodeDecodeError.
Proof.
  repeat split.
Qed.

(** ** Missing and corrupt files *)




(** * Further properties of the module *)

(** ** One tokens file per data directory *)






(** Spellings of one directory give one tokens path. *)
Lemma tokens_file_path_normalised :
  get_tokens_file_path "data/" = get_tokens_file_path "data" /\
  get_tokens_file_path "./data" = get_tokens_file_path "data" /\
  get_tokens_file_path "data//" = get_tokens_file_path "data" /\
  get_tokens_file_path "data" = mkPath "" ["data"; ".share-tokens.json"] /\
  get_tokens_file_path "/srv//notes/." =
  mkPath "/" ["srv"; "notes"; ".share-tokens.json"].
Proof.
  repeat split.
Qed.



(** ** Tokens and paths resolve to each other *)

Lemma first_match_Some_In (p : string) (t : Table) (T : string)
  (info : Record_) :
  first_match p t = Some (T, info) -> In (T, info) t /\ path_is p info = true.
Proof.
  intros H. destruct (first_match_split _ _ _ _ H) as (pre & post & -> & Hp & _).
  split; [apply in_elt | exact Hp].
Qed.

Lemma path_is_of_get (p : string) (info : Record_) :
  get info "path" PyNone = PyStr p -> path_is p info = true.
Proof.
  intros H. unfold path_is. rewrite H. apply String.eqb_refl.
Qed.

Lemma first_match_of_In (p : string) (t : Table) (T : string)
  (info : Record_) :
  In (T, info) t -> path_is p info = true ->
  exists T0 info0, first_match p t = Some (T0, info0).
Proof.
  intros Hin Hp.
  destruct (first_match p t) as [[T0 info0]|] eqn:Hm; [now exists T0, info0|].
  apply first_match_None_count in Hm.
  pose proof (count_path_In _ _ _ _ Hin Hp). lia.
Qed.

(** X2. On a table with pairwise distinct tokens, the token that
    [get_share_token] gives for a path resolves, by [get_note_by_token],
    to a record of that path.  Conversely, when [get_note_by_token]
    resolves a token to the path [p], [get_share_token] finds a token for
    [p], and it is the same token when [p] has one record only. *)
Theorem share_token_and_note_agree fs d p t T :
  load_tokens fs d = Ret t ->
  (unique_keys t = true ->
   get_share_token fs d p = Ret (Some T) ->
   exists theme,
     get_note_by_token fs d T =
     Ret (Some [("path", PyStr p); ("theme", theme)])) /\
  (forall theme,
     get_note_by_token fs d T =
     Ret (Some [("path", PyStr p); ("theme", theme)]) ->
     exists T0,
       get_share_token fs d p = Ret (Some T0) /\
       (count_path p t <= 1 -> T0 = T)).
Proof.
  intros Hl. unfold get_share_token, get_note_by_token. rewrite Hl. simpl.
  split.
  - intros Hu Hs.
    destruct (first_match p t) as [[T0 info]|] eqn:Hm; [|discriminate].
    injection Hs as ->.
    destruct (first_match_Some_In _ _ _ _ Hm) as [Hin Hp].
    rewrite (unique_keys_In_get _ _ _ Hu Hin), (path_is_true _ _ Hp).
    now eexists.
  - intros theme Hn.
    destruct (dict_get T t) as [info|] eqn:Hg; [|discriminate].
    injection Hn as Hpath _.
    pose proof (path_is_of_get _ _ Hpath) as Hp.
    pose proof (dict_get_In _ _ _ Hg) as Hin.
    destruct (first_match_of_In _ _ _ _ Hin Hp) as (T0 & info0 & Hm).
    rewrite Hm. exists T0. split; [reflexivity|].
    intros Hc.
    destruct (first_match_Some_In _ _ _ _ Hm) as [Hin0 Hp0].
    unfold count_path in Hc.
    assert (F0 : In (T0, info0) (filter (fun kv => path_is p (snd kv)) t))
      by (apply filter_In; auto).
    assert (F1 : In (T, info) (filter (fun kv => path_is p (snd kv)) t))
      by (apply filter_In; auto).
    destruct (filter (fun kv => path_is p (snd kv)) t) as [|x [|y l]];
      simpl in *; try lia; try contradiction.
    destruct F0 as [E0|[]], F1 as [E1|[]]. congruence.
Qed.

Lemma share_token_and_note_agree_witness :
  (exists theme,
     get_note_by_token fs_a_b "data" "qrstuvwxyzABCDEF" =
     Ret (Some [("path", PyStr "notes/b.md"); ("theme", theme)])) /\
  (exists T0,
     get_share_token fs_a_b "data" "notes/b.md" = Ret (Some T0) /\
     T0 = "qrstuvwxyzABCDEF").
Proof.
  destruct (share_token_and_note_agree fs_a_b "data" "notes/b.md"
              [("abcdefghijklmnop", new_record env_ok "notes/a.md" "dark");
               ("qrstuvwxyzABCDEF", new_record env_ok "notes/b.md" "light")]
              "qrstuvwxyzABCDEF" eq_refl) as [H1 H2].
  split.
  - apply H1; reflexivity.
  - destruct (H2 (PyStr "light") eq_refl) as (T0 & E & H).
    exists T0. split; [exact E | apply H; vm_compute; lia].
Defined.

(** X3. [get_share_info] and [get_share_token] always agree: the first
    answers [{shared: False}] exactly when the second answers [None], and it
    reports the token [T] exactly when the second returns [T]. *)
Theorem share_info_agrees_with_share_token fs d p :
  (get_share_info fs d p = Ret [("shared", PyBool false)] <->
   get_share_token fs d p = Ret None) /\
  (forall T,
     (exists theme created,
        get_share_info fs d p =
        Ret [("token", PyStr T); ("theme", theme); ("created", created);
             ("shared", PyBool true)]) <->
     get_share_token fs d p = Ret (Some T)).
Proof.
  unfold get_share_info, get_share_token.
  destruct (load_tokens fs d) as [t| |]; simpl.
  - destruct (first_match p t) as [[T0 info]|]; split.
    + split; discriminate.
    + intros T. split.
      * intros (theme & created & [= -> _ _]). reflexivity.
      * intros [= ->]. now eexists; eexists.
    + now split.
    + intros T. split; [intros (theme & created & H)|intros H]; discriminate.
  - split; [split; discriminate|].
    intros T. split; [intros (theme & created & H)|intros H]; discriminate.
  - split; [split; discriminate|].
    intros T. split; [intros (theme & created & H)|intros H]; discriminate.
Qed.

(** ** The list of shared paths *)

(** X4. A string [p] is in [get_all_shared_paths d] exactly when it is not
    empty and [get_share_token d p] finds a token: a record whose path is
    the empty string is found by path but is not listed.  The list is never
    longer than the table. *)
Theorem shared_paths_membership fs d t :
  load_tokens fs d = Ret t ->
  exists paths,
    get_all_shared_paths fs d = Ret paths /\
    List.length paths <= List.length t /\
    forall p,
      In (PyStr p) paths <->
      p <> "" /\ exists T, get_share_token fs d p = Ret (Some T).
Proof.
  intros Hl. unfold get_all_shared_paths, get_share_token. rewrite Hl. simpl.
  eexists. split; [reflexivity|]. split.
  - rewrite length_map. unfold values.
    rewrite <- (length_map snd t). apply filter_length_le.
  - intros p. split.
    + intros Hin. apply in_map_iff in Hin as (info & Hpath & Hin).
      apply filter_In in Hin as [Hin Htruthy].
      apply in_map_iff in Hin as ([T i] & <- & Hin). simpl in *.
      rewrite Hpath in Htruthy. split.
      * intros ->. discriminate.
      * destruct (first_match_of_In p t T i Hin (path_is_of_get _ _ Hpath))
          as (T0 & info0 & ->).
        now exists T0.
    + intros [Hne (T & HT)].
      destruct (first_match p t) as [[T0 info]|] eqn:Hm; [|discriminate].
      destruct (first_match_Some_In _ _ _ _ Hm) as [Hin Hp].
      apply in_map_iff. exists info. split; [now apply path_is_true|].
      apply filter_In. split.
      * apply in_map_iff. now exists (T0, info).
      * rewrite (path_is_true _ _ Hp). simpl.
        now destruct (String.eqb_spec p "").
Qed.

Lemma shared_paths_membership_witness :
  exists paths,
    get_all_shared_paths fs_a_b "data" = Ret paths /\
    List.length paths <= 2 /\
    forall p,
      In (PyStr p) paths <->
      p <> "" /\ exists T, get_share_token fs_a_b "data" p = Ret (Some T).
Proof.
  apply (shared_paths_membership fs_a_b "data"
           [("abcdefghijklmnop", new_record env_ok "notes/a.md" "dark");
            ("qrstuvwxyzABCDEF", new_record env_ok "notes/b.md" "light")]).
  reflexivity.
Defined.

(** ** What [create_share_token] adds *)

Lemma generate_token_ok (rng : nat -> nat) :
  token_ok (fst (generate_token generate_token_default_length rng)).
Proof.
  split.
  - now rewrite generate_token_length.
  - unfold generate_token. cbn [fst].
    rewrite list_ascii_of_string_of_list_ascii.
    apply Forall_forall. intros c Hc.
    apply in_map_iff in Hc as (i & <- & _).
    rewrite <- alphabet_url_safe. apply existsb_exists.
    exists (choice alphabet (rng i)). split.
    + apply choice_In. discriminate.
    + apply Ascii.eqb_refl.
Qed.

Lemma regenerate_ok (fuel : nat) (t : Table) :
  forall (token : string) (rng : nat -> nat) (token' : string),
    token_ok token ->
    regenerate fuel t token rng = Some token' -> token_ok token'.
Proof.
  induction fuel as [|fuel IH]; intros token rng token' Hok;
    cbn [regenerate];
    destruct (dict_contains token t); try discriminate;
    try (now intros [= <-]).
  pose proof (generate_token_ok rng) as Hg.
  destruct (generate_token generate_token_default_length rng) as [tk rng'].
  simpl in Hg. intros R. exact (IH tk rng' token' Hg R).
Qed.







(** ** What [revoke_share_token] removes *)

Section DictDel.
Context {V : Type}.
Implicit Types (d : dict V) (k : string).

Lemma dict_get_del_same k d : dict_get k (dict_del k d) = None.
Proof.
  unfold dict_del.
  induction d as [|[k' v] d IH]; simpl; [reflexivity|].
  destruct (String.eqb_spec k' k) as [->|Hne]; simpl; [exact IH|].
  destruct (String.eqb_spec k' k); [congruence | exact IH].
Qed.

Lemma dict_get_del_other k k' d :
  k' <> k -> dict_get k' (dict_del k d) = dict_get k' d.
Proof.
  intros Hne. unfold dict_del.
  induction d as [|[k0 v] d IH]; simpl; [reflexivity|].
  destruct (String.eqb_spec k0 k) as [->|Hk]; simpl.
  - destruct (String.eqb_spec k k'); [congruence | exact IH].
  - now rewrite IH.
Qed.

Lemma dict_del_absent k d : dict_contains k d = false -> dict_del k d = d.
Proof.
  unfold dict_contains, dict_del.
  induction d as [|[k' v] d IH]; simpl; [reflexivity|].
  destruct (k' =? k); simpl; [discriminate|].
  intros H. now rewrite IH.
Qed.

Lemma dict_contains_del k k' d :
  dict_contains k' d = false -> dict_contains k' (dict_del k d) = false.
Proof.
  unfold dict_contains. intros H.
  destruct (String.eqb_spec k' k) as [->|Hne].
  - now rewrite dict_get_del_same.
  - now rewrite dict_get_del_other.
Qed.

Lemma unique_keys_dict_del k d :
  unique_keys d = true -> unique_keys (dict_del k d) = true.
Proof.
  induction d as [|[k' v] d IH]; simpl; [reflexivity|].
  intros H. apply andb_true_iff in H as [Hk Hu].
  fold (dict_del k d).
  destruct (negb (k' =? k)); simpl; [|now apply IH].
  apply andb_true_iff. split; [|now apply IH].
  apply negb_true_iff in Hk. apply negb_true_iff.
  now apply dict_contains_del.
Qed.

Lemma keys_dict_del_Forall (P : string -> Prop) k d :
  Forall P (keys d) -> Forall P (keys (dict_del k d)).
Proof.
  unfold keys, dict_del.
  induction d as [|[k' v] d IH]; simpl; intros H; [constructor|].
  inversion H as [|? ? Hk Hrest]; subst.
  destruct (negb (k' =? k)); simpl; [constructor|]; auto.
Qed.

Lemma length_dict_del k d :
  unique_keys d = true -> dict_contains k d = true ->
  List.length d = S (List.length (dict_del k d)).
Proof.
  induction d as [|[k' v] d IH]; simpl; [discriminate|].
  intros Hu Hc. apply andb_true_iff in Hu as [Hk Hu].
  apply negb_true_iff in Hk. fold (dict_del k d).
  unfold dict_contains in Hc. simpl in Hc.
  destruct (String.eqb_spec k' k) as [->|Hne]; simpl.
  - now rewrite (dict_del_absent _ _ Hk).
  - f_equal. apply IH; [exact Hu | exact Hc].
Qed.
End DictDel.

(** X7. A call of [revoke_share_token] that returns [True] deletes the
    record of the token that [get_share_token] reported for the path: that
    token no longer resolves, every other token resolves as before, and the
    table (of pairwise distinct tokens) has one record less. *)
Theorem revoke_invalidates_token e d p fs t :
  load_tokens fs d = Ret t ->
  fst (revoke_share_token e d p fs) = Ret true ->
  exists T,
    get_share_token fs d p = Ret (Some T) /\
    get_note_by_token (snd (revoke_share_token e d p fs)) d T = Ret None /\
    (forall T', T' <> T ->
       get_note_by_token (snd (revoke_share_token e d p fs)) d T' =
       get_note_by_token fs d T') /\
    (unique_keys t = true ->
     exists t',
       load_tokens (snd (revoke_share_token e d p fs)) d = Ret t' /\
       List.length t = S (List.length t')).
Proof.
  intros Hl Hr.
  destruct (revoke_share_token_true e d p fs t Hl Hr)
    as (T & info & Hm & _ & _ & ->).
  exists T. unfold get_share_token, get_note_by_token.
  rewrite load_tokens_put, Hl. simpl. rewrite Hm, dict_get_del_same.
  split; [reflexivity|]. split; [reflexivity|]. split.
  - intros T' Hne. now rewrite dict_get_del_other.
  - intros Hu. eexists. split; [reflexivity|].
    apply length_dict_del; [exact Hu|].
    destruct (first_match_Some_In _ _ _ _ Hm) as [Hin _].
    unfold dict_contains. now rewrite (unique_keys_In_get _ _ _ Hu Hin).
Qed.

Lemma revoke_invalidates_token_witness :
  exists T,
    get_share_token fs_a_b "data" "notes/a.md" = Ret (Some T) /\
    get_note_by_token
      (snd (revoke_share_token env_ok "data" "notes/a.md" fs_a_b)) "data" T =
    Ret None /\
    (forall T', T' <> T ->
       get_note_by_token
         (snd (revoke_share_token env_ok "data" "notes/a.md" fs_a_b))
         "data" T' =
       get_note_by_token fs_a_b "data" T') /\
    exists t',
      load_tokens
        (snd (revoke_share_token env_ok "data" "notes/a.md" fs_a_b)) "data" =
      Ret t' /\
      2 = S (List.length t').
Proof.
  destruct (revoke_invalidates_token env_ok "data" "notes/a.md" fs_a_b
              [("abcdefghijklmnop", new_record env_ok "notes/a.md" "dark");
               ("qrstuvwxyzABCDEF", new_record env_ok "notes/b.md" "light")]
              eq_refl eq_refl) as (T & H1 & H2 & H3 & H4).
  exists T. split; [exact H1|]. split; [exact H2|]. split; [exact H3|].
  exact (H4 eq_refl).
Defined.

(** X8. For a path that has no record, [revoke_share_token],
    [delete_token_for_note] and [update_token_path] return [False] and
    write nothing, whatever the disk would do with a write. *)
Theorem unshared_path_nothing_written e d p new_path fs :
  get_share_token fs d p = Ret None ->
  revoke_share_token e d p fs = (Ret false, fs) /\
  delete_token_for_note e d p fs = (Ret false, fs) /\
  update_token_path e d p new_path fs = (Ret false, fs).
Proof.
  unfold delete_token_for_note, revoke_share_token, update_token_path,
    get_share_token.
  destruct (load_tokens fs d) as [t| |]; simpl; try discriminate.
  destruct (first_match p t) as [[T info]|] eqn:Hm; [discriminate|].
  intros _.
  now rewrite (proj2 (set_first_path_None p new_path t) Hm).
Qed.

Lemma unshared_path_nothing_written_witness :
  revoke_share_token env_ok "data" "notes/c.md" fs_a_b = (Ret false, fs_a_b) /\
  delete_token_for_note env_ok "data" "notes/c.md" fs_a_b =
  (Ret false, fs_a_b) /\
  update_token_path env_ok "data" "notes/c.md" "notes/d.md" fs_a_b =
  (Ret false, fs_a_b).
Proof.
  apply (unshared_path_nothing_written env_ok "data" "notes/c.md"
           "notes/d.md" fs_a_b).
  reflexivity.
Defined.

(** ** The tokens of a table that the module wrote *)

Lemma dict_contains_same_keys {V W : Type} (k : string) (d : dict V) :
  forall d' : dict W,
    keys d = keys d' -> dict_contains k d = dict_contains k d'.
Proof.
  unfold dict_contains.
  induction d as [|[k0 v] d IH]; intros [|[k1 w] d'] E;
    try discriminate; [reflexivity|].
  injection E as -> E. simpl.
  destruct (k1 =? k); [reflexivity | now apply IH].
Qed.

Lemma unique_keys_same_keys {V W : Type} (d : dict V) :
  forall d' : dict W, keys d = keys d' -> unique_keys d = unique_keys d'.
Proof.
  induction d as [|[k0 v] d IH]; intros [|[k1 w] d'] E;
    try discriminate; [reflexivity|].
  injection E as -> E. simpl.
  now rewrite (dict_contains_same_keys k1 d d' E), (IH d' E).
Qed.

Lemma unique_keys_app_fresh {V : Type} (k : string) (v : V) (d : dict V) :
  unique_keys d = true -> dict_contains k d = false ->
  unique_keys (d ++ [(k, v)])%list = true.
Proof.
  induction d as [|[k0 v0] d IH]; simpl; [reflexivity|].
  intros Hu Hc. apply andb_true_iff in Hu as [Hk Hu].
  apply negb_true_iff in Hk.
  unfold dict_contains in Hc, Hk |- *. simpl in Hc.
  destruct (String.eqb_spec k0 k) as [->|Hne]; [discriminate|].
  apply andb_true_iff. split.
  - apply negb_true_iff. rewrite dict_get_app.
    destruct (dict_get k0 d); [discriminate|]. simpl.
    now destruct (String.eqb_spec k k0); [congruence|].
  - apply IH; [exact Hu|]. exact Hc.
Qed.

Lemma set_first_path_keys (old_path new_path : string) (t t' : Table) :
  set_first_path old_path new_path t = Some t' -> keys t' = keys t.
Proof.
  intros H.
  destruct (set_first_path_split _ _ _ _ H)
    as (pre & T & info & post & -> & -> & _ & _).
  unfold keys. now rewrite !map_app.
Qed.

Lemma tokens_ok_save e d t' fs :
  (forall t, load_tokens fs d = Ret t -> tokens_ok t) ->
  tokens_ok t' ->
  forall t, load_tokens (snd (save_tokens e d t' fs)) d = Ret t -> tokens_ok t.
Proof.
  intros Hfs Ht'.
  destruct (save_tokens_cases e d t' fs)
    as [(_ & S) | [(_ & S) | (j & _ & S)]]; rewrite S; simpl.
  - intros t. rewrite load_tokens_put. now intros [= <-].
  - exact Hfs.
  - intros t. rewrite load_tokens_put.
    destruct j; [intros [= <-] | discriminate].
    split; [reflexivity | constructor].
Qed.

Lemma create_share_token_fs_ok e fuel d p theme fs :
  snd (create_share_token e fuel d p theme fs) = fs \/
  exists t T,
    load_tokens fs d = Ret t /\ dict_contains T t = false /\ token_ok T /\
    snd (create_share_token e fuel d p theme fs) =
    snd (save_tokens e d (t ++ [(T, new_record e p theme)])%list fs).
Proof.
  unfold create_share_token.
  destruct (load_tokens fs d) as [t| |] eqn:Hl; try now left.
  destruct (first_match p t) as [[T0 info]|]; [now left|].
  pose proof (generate_token_ok (rand e)) as Hg.
  destruct (generate_token generate_token_default_length (rand e))
    as [token rng].
  destruct (regenerate fuel t token rng) as [T|] eqn:R; [right | now left].
  pose proof (regenerate_fresh _ _ _ _ _ R) as HT.
  pose proof (regenerate_ok _ _ _ _ _ Hg R) as Hok.
  exists t, T. split; [reflexivity|]. split; [exact HT|]. split; [exact Hok|].
  rewrite (dict_set_fresh _ _ _ HT). cbv zeta.
  change (snd (let (saved, fs') :=
                 save_tokens e d (t ++ [(T, new_record e p theme)])%list fs in
               if saved then (Ret (Some T), fs') else (Ret None, fs')) =
          snd (save_tokens e d (t ++ [(T, new_record e p theme)])%list fs)).
  now destruct (save_tokens e d (t ++ [(T, new_record e p theme)])%list fs)
    as [[] fs'].
Qed.

(** The invariant of the tables reachable from the empty table. *)
Lemma tokens_ok_reachable d fs :
  reachable d fs -> forall t, load_tokens fs d = Ret t -> tokens_ok t.
Proof.
  induction 1 as [fs Hl | fs e fuel p theme _ IH | fs e p _ IH
                 | fs e old_path new_path _ IH].
  - intros t Ht. rewrite Hl in Ht. injection Ht as <-.
    split; [reflexivity | constructor].
  - destruct (create_share_token_fs_ok e fuel d p theme fs)
      as [-> | (t & T & Hl & HT & Hok & ->)]; [exact IH|].
    apply tokens_ok_save; [exact IH|].
    destruct (IH t Hl) as [Hu Hall]. split.
    + now apply unique_keys_app_fresh.
    + unfold keys in *. rewrite map_app. apply Forall_app.
      split; [exact Hall | now constructor].
  - destruct (revoke_share_token_fs e d p fs)
      as [-> | (t & T & info & Hl & _ & ->)]; [exact IH|].
    apply tokens_ok_save; [exact IH|].
    destruct (IH t Hl) as [Hu Hall]. split.
    + now apply unique_keys_dict_del.
    + now apply keys_dict_del_Forall.
  - destruct (update_token_path_fs e d old_path new_path fs)
      as [-> | (t & t' & Hl & Hs & ->)]; [exact IH|].
    apply tokens_ok_save; [exact IH|].
    destruct (IH t Hl) as [Hu Hall].
    pose proof (set_first_path_keys _ _ _ _ Hs) as Hk. split.
    + now rewrite (unique_keys_same_keys t' t Hk).
    + now rewrite Hk.
Qed.

(** X9. In every table reachable from the empty table by
    [create_share_token], [revoke_share_token] and [update_token_path], in
    any environment, the tokens are pairwise distinct and each has exactly
    16 symbols of the alphabet; in particular no token is empty. *)
Theorem reachable_tokens_are_generated d fs t :
  reachable d fs ->
  load_tokens fs d = Ret t ->
  unique_keys t = true /\
  forall T info,
    In (T, info) t ->
    String.length T = 16 /\
    Forall (fun c => url_safe c = true) (list_ascii_of_string T) /\
    T <> "".
Proof.
  intros Hr Hl. destruct (tokens_ok_reachable d fs Hr t Hl) as [Hu Hall].
  split; [exact Hu|].
  intros T info Hin.
  assert (HT : token_ok T).
  { unfold keys in Hall. rewrite Forall_forall in Hall.
    apply Hall. apply in_map_iff. now exists (T, info). }
  destruct HT as [Hlen Hchars].
  split; [exact Hlen|]. split; [exact Hchars|].
  intros ->. discriminate.
Qed.

Lemma reachable_tokens_are_generated_witness :
  unique_keys
    [("abcdefghijklmnop",
      [("path", PyStr "notes/b.md"); ("theme", PyStr "dark");
       ("created", PyStr "2024-01-15T10:30:00+00:00")]);
     ("qrstuvwxyzABCDEF",
      [("path", PyStr "notes/b.md"); ("theme", PyStr "light");
       ("created", PyStr "2024-01-15T10:30:00+00:00")])] = true /\
  forall T info,
    In (T, info)
      [("abcdefghijklmnop",
        [("path", PyStr "notes/b.md"); ("theme", PyStr "dark");
         ("created", PyStr "2024-01-15T10:30:00+00:00")]);
       ("qrstuvwxyzABCDEF",
        [("path", PyStr "notes/b.md"); ("theme", PyStr "light");
         ("created", PyStr "2024-01-15T10:30:00+00:00")])] ->
    String.length T = 16 /\
    Forall (fun c => url_safe c = true) (list_ascii_of_string T) /\
    T <> "".
Proof.
  apply (reachable_tokens_are_generated "data" fs_b_b).
  - apply reach_update. apply reach_create. apply reach_create.
    apply reach_empty. reflexivity.
  - reflexivity.
Defined.

(** X10. On a table reachable from the empty table, [revoke_share_token]
    returns a boolean, and it returns [True] exactly when the path has a
    token and the save succeeds. *)
Theorem revoke_on_reachable_table e d p fs t :
  reachable d fs ->
  load_tokens fs d = Ret t ->
  (exists b, fst (revoke_share_token e d p fs) = Ret b) /\
  (fst (revoke_share_token e d p fs) = Ret true <->
   (exists T, get_share_token fs d p = Ret (Some T)) /\ write e = Written).
Proof.
  intros Hr Hl.
  destruct (revoke_share_token_true_iff e d p fs t Hl) as [Hb Hiff].
  split; [exact Hb|]. rewrite Hiff.
  unfold get_share_token. rewrite Hl. simpl. split.
  - intros (T & info & Hm & _ & W). rewrite Hm.
    split; [now exists T | exact W].
  - intros [(T & HT) W].
    destruct (first_match p t) as [[T0 info]|] eqn:Hm; [|discriminate].
    exists T0, info. split; [reflexivity|]. split; [|exact W].
    destruct (tokens_ok_reachable d fs Hr t Hl) as [_ Hall].
    destruct (first_match_Some_In _ _ _ _ Hm) as [Hin _].
    unfold keys in Hall. rewrite Forall_forall in Hall.
    assert (HT0 : token_ok T0)
      by (apply Hall; apply in_map_iff; now exists (T0, info)).
    destruct HT0 as [Hlen _]. intros ->. discriminate.
Qed.

Lemma revoke_on_reachable_table_witness :
  (exists b,
     fst (revoke_share_token env_refused "data" "notes/a.md" fs_a_b) = Ret b) /\
  (fst (revoke_share_token env_refused "data" "notes/a.md" fs_a_b) = Ret true
   <->
   (exists T, get_share_token fs_a_b "data" "notes/a.md" = Ret (Some T)) /\
   write env_refused = Written).
Proof.
  apply (revoke_on_reachable_table env_refused "data" "notes/a.md" fs_a_b
           [("abcdefghijklmnop", new_record env_ok "notes/a.md" "dark");
            ("qrstuvwxyzABCDEF", new_record env_ok "notes/b.md" "light")]).
  - apply reach_create. apply reach_create. apply reach_empty. reflexivity.
  - reflexivity.
Defined.

(** ** Renaming *)

Lemma dict_set_set_back {V : Type} (k : string) (v v0 : V) (d : dict V) :
  dict_get k d = Some v0 -> dict_set k v0 (dict_set k v d) = d.
Proof.
  induction d as [|[k' v'] d IH]; simpl; [discriminate|].
  destruct (String.eqb_spec k' k) as [->|Hne]; simpl.
  - intros [= ->]. now rewrite String.eqb_refl.
  - intros H. destruct (String.eqb_spec k' k); [congruence|].
    now rewrite IH.
Qed.

Lemma set_first_path_app (old_path new_path : string) (pre l : Table) :
  first_match old_path pre = None ->
  set_first_path old_path new_path (pre ++ l)%list =
  option_map (app pre) (set_first_path old_path new_path l).
Proof.
  unfold first_match.
  induction pre as [|[T info] pre IH]; simpl.
  - intros _. now destruct (set_first_path old_path new_path l).
  - destruct (path_is old_path info); [discriminate|].
    intros H. rewrite (IH H).
    now destruct (set_first_path old_path new_path l).
Qed.

(** The table before and after a successful rename onto a path that had no
    record. *)
Lemma update_token_path_onto_unshared e d old_path new_path fs t :
  load_tokens fs d = Ret t ->
  first_match new_path t = None ->
  fst (update_token_path e d old_path new_path fs) = Ret true ->
  exists pre T info post,
    t = (pre ++ (T, info) :: post)%list /\
    first_match old_path t = Some (T, info) /\
    path_is old_path info = true /\
    first_match new_path pre = None /\
    snd (update_token_path e d old_path new_path fs) =
    fs_put fs (get_tokens_file_path d)
      (Holds (Json (pre ++ (T, dict_set "path" (PyStr new_path) info)
                    :: post)%list)).
Proof.
  intros Hl Hn Hr.
  destruct (update_token_path_true e d old_path new_path fs t Hl Hr)
    as (t' & Hs & _ & ->).
  destruct (set_first_path_split _ _ _ _ Hs)
    as (pre & T & info & post & Ht & -> & Hp & Hpre).
  exists pre, T, info, post. split; [exact Ht|]. split.
  - rewrite Ht, first_match_app by assumption.
    unfold first_match. simpl. now rewrite Hp.
  - split; [exact Hp|]. split; [|reflexivity].
    apply first_match_None_count. apply first_match_None_count in Hn.
    rewrite Ht, count_path_app in Hn. lia.
Qed.

(** X11. Renaming a shared path onto a path that has no record and then
    back again restores the table exactly, when both saves succeed. *)
Theorem rename_there_and_back e1 e2 d old_path new_path fs t :
  load_tokens fs d = Ret t ->
  get_share_token fs d new_path = Ret None ->
  fst (update_token_path e1 d old_path new_path fs) = Ret true ->
  write e2 = Written ->
  fst (update_token_path e2 d new_path old_path
         (snd (update_token_path e1 d old_path new_path fs))) = Ret true /\
  load_tokens
    (snd (update_token_path e2 d new_path old_path
            (snd (update_token_path e1 d old_path new_path fs)))) d = Ret t.
Proof.
  intros Hl Hn Hr W.
  assert (Hm : first_match new_path t = None).
  { unfold get_share_token in Hn. rewrite Hl in Hn. simpl in Hn.
    now destruct (first_match new_path t) as [[? ?]|]. }
  destruct (update_token_path_onto_unshared e1 d old_path new_path fs t
              Hl Hm Hr) as (pre & T & info & post & Ht & _ & Hp & Hpre & ->).
  unfold update_token_path. rewrite load_tokens_put.
  rewrite (set_first_path_app new_path old_path pre _ Hpre).
  simpl. rewrite path_is_set, String.eqb_refl. simpl.
  rewrite (dict_set_set_back "path" (PyStr new_path) (PyStr old_path) info)
    by now apply path_is_has_path.
  unfold save_tokens. rewrite W. simpl.
  split; [reflexivity|]. now rewrite load_tokens_put, Ht.
Qed.

Lemma rename_there_and_back_witness :
  fst (update_token_path env_ok "data" "notes/c.md" "notes/a.md" fs_c_b) =
  Ret true /\
  load_tokens
    (snd (update_token_path env_ok "data" "notes/c.md" "notes/a.md" fs_c_b))
    "data" =
  Ret [("abcdefghijklmnop", new_record env_ok "notes/a.md" "dark");
       ("qrstuvwxyzABCDEF", new_record env_ok "notes/b.md" "light")].
Proof.
  apply (rename_there_and_back env_ok env_ok "data" "notes/a.md" "notes/c.md"
           fs_a_b
           [("abcdefghijklmnop", new_record env_ok "notes/a.md" "dark");
            ("qrstuvwxyzABCDEF", new_record env_ok "notes/b.md" "light")]);
    reflexivity.
Defined.

(** X12. After a successful rename onto a path that had no record, the new
    path has the token, the theme and the creation date that the old path
    had: [get_share_token] and [get_share_info] answer for the new path what
    they answered for the old one. *)
Theorem rename_carries_share_info e d old_path new_path fs t :
  load_tokens fs d = Ret t ->
  get_share_token fs d new_path = Ret None ->
  fst (update_token_path e d old_path new_path fs) = Ret true ->
  (exists T, get_share_token fs d old_path = Ret (Some T)) /\
  get_share_token (snd (update_token_path e d old_path new_path fs))
    d new_path = get_share_token fs d old_path /\
  get_share_info (snd (update_token_path e d old_path new_path fs))
    d new_path = get_share_info fs d old_path.
Proof.
  intros Hl Hn Hr.
  assert (Hm : first_match new_path t = None).
  { unfold get_share_token in Hn. rewrite Hl in Hn. simpl in Hn.
    now destruct (first_match new_path t) as [[? ?]|]. }
  destruct (update_token_path_onto_unshared e d old_path new_path fs t
              Hl Hm Hr) as (pre & T & info & post & Ht & Hold & Hp & Hpre & ->).
  unfold get_share_token, get_share_info.
  rewrite load_tokens_put, Hl. simpl. rewrite Hold.
  rewrite (first_match_app new_path pre _ Hpre).
  unfold first_match. simpl. rewrite path_is_set, String.eqb_refl.
  split; [now exists T|]. split; [reflexivity|].
  unfold get. now rewrite !dict_get_set_other by discriminate.
Qed.

Lemma rename_carries_share_info_witness :
  (exists T, get_share_token fs_a_b "data" "notes/a.md" = Ret (Some T)) /\
  get_share_token fs_c_b "data" "notes/c.md" =
  get_share_token fs_a_b "data" "notes/a.md" /\
  get_share_info fs_c_b "data" "notes/c.md" =
  get_share_info fs_a_b "data" "notes/a.md".
Proof.
  apply (rename_carries_share_info env_ok "data" "notes/a.md" "notes/c.md"
           fs_a_b
           [("abcdefghijklmnop", new_record env_ok "notes/a.md" "dark");
            ("qrstuvwxyzABCDEF", new_record env_ok "notes/b.md" "light")]);
    reflexivity.
Defined.

(** ** Failures of [create_share_token] *)

(** X13. [create_share_token] returns [None] only when the path had no
    token and the save failed; the path has no token afterwards either. *)
Theorem create_returns_none e fuel d p theme fs :
  fst (create_share_token e fuel d p theme fs) = Ret None ->
  write e <> Written /\
  get_share_token fs d p = Ret None /\
  forall T,
    get_share_token (snd (create_share_token e fuel d p theme fs)) d p <>
    Ret (Some T).
Proof.
  intros Hr.
  destruct (load_tokens fs d) as [t| |] eqn:Hl;
    try (unfold create_share_token in Hr; rewrite Hl in Hr; discriminate).
  destruct (first_match p t) as [[T0 info]|] eqn:Hm.
  - rewrite (create_share_token_shared e fuel d p theme fs t T0 info Hl Hm)
      in Hr. discriminate.
  - assert (Hg : get_share_token fs d p = Ret None)
      by (unfold get_share_token; now rewrite Hl; simpl; rewrite Hm).
    destruct (create_share_token_fresh e fuel d p theme fs t Hl Hm)
      as [E | (T & _ & E)]; rewrite E in Hr |- *; [discriminate|].
    destruct (save_tokens_cases e d (t ++ [(T, new_record e p theme)])%list fs)
      as [(_ & S) | [(W & S) | (j & W & S)]]; rewrite S in Hr |- *;
      simpl in Hr |- *; try discriminate.
    + split; [congruence|]. split; [exact Hg|].
      intros T'. rewrite Hg. discriminate.
    + split; [congruence|]. split; [exact Hg|].
      intros T'. unfold get_share_token. rewrite load_tokens_put.
      destruct j; simpl; discriminate.
Qed.

Lemma create_returns_none_witness :
  write env_refused <> Written /\
  get_share_token fs_a_dark "data" "notes/b.md" = Ret None /\
  forall T,
    get_share_token
      (snd (create_share_token env_refused 1 "data" "notes/b.md" "light"
              fs_a_dark)) "data" "notes/b.md" <> Ret (Some T).
Proof.
  apply (create_returns_none env_refused 1 "data" "notes/b.md" "light"
           fs_a_dark).
  reflexivity.
Defined.

(** ** Missing and corrupt files, read *)

(** X14. When [exists()] reports the tokens file missing, or reports it
    present and opening or reading it raises [JSONDecodeError] or an
    [IOError], or the file holds the empty table, every read function
    answers as for no share at all: no token for a path, no note for a
    token, [{shared: False}], and the empty list of paths. *)
Theorem nothing_shared_without_table d p T fs :
  exists_ fs (get_tokens_file_path d) = Ret false \/
  (exists_ fs (get_tokens_file_path d) = Ret true /\
   (open_json_load fs (get_tokens_file_path d) = Raise JSONDecodeError \/
    open_json_load fs (get_tokens_file_path d) = Raise IOError \/
    open_json_load fs (get_tokens_file_path d) = Ret [])) ->
  get_share_token fs d p = Ret None /\
  get_note_by_token fs d T = Ret None /\
  get_share_info fs d p = Ret [("shared", PyBool false)] /\
  get_all_shared_paths fs d = Ret [].
Proof.
  intros Hfile.
  assert (Hl : load_tokens fs d = Ret []).
  { unfold load_tokens, exists_, open_json_load in *.
    destruct (file_at fs (get_tokens_file_path d)) as [| | |[t|[]]]; simpl;
      try reflexivity;
      destruct Hfile as [H | [H [H' | [H' | H']]]]; try discriminate.
    now injection H' as ->. }
  unfold get_share_token, get_note_by_token, get_share_info,
    get_all_shared_paths.
  rewrite Hl. repeat split.
Qed.

Lemma nothing_shared_without_table_witness :
  get_share_token fs_unreadable "data" "notes/a.md" = Ret None /\
  get_note_by_token fs_unreadable "data" "abcdefghijklmnop" = Ret None /\
  get_share_info fs_unreadable "data" "notes/a.md" =
  Ret [("shared", PyBool false)] /\
  get_all_shared_paths fs_unreadable "data" = Ret [].
Proof.
  apply (nothing_shared_without_table "data" "notes/a.md" "abcdefghijklmnop"
           fs_unreadable).
  right. split; [reflexivity | right; left; reflexivity].
Defined.

(** ** Tokens and draws *)

Lemma get_nth_error (s : string) :
  forall n : nat, String.get n s = nth_error (list_ascii_of_string s) n.
Proof.
  induction s as [|a s IH]; intros [|n]; simpl; auto.
Qed.

Lemma alphabet_NoDup : NoDup (list_ascii_of_string alphabet).
Proof.
  apply (NoDup_count_occ' ascii_dec). intros c Hc.
  assert (Hb : existsb (Ascii.eqb c) (list_ascii_of_string alphabet) = true).
  { apply existsb_exists. exists c. split; [exact Hc | apply Ascii.eqb_refl]. }
  rewrite alphabet_url_safe in Hb. revert Hb. clear Hc.
  destruct c as [[] [] [] [] [] [] [] []]; vm_compute;
    first [reflexivity | discriminate].
Qed.

(** Two draws choose the same symbol exactly when they are the same index
    of the alphabet. *)
Lemma choice_alphabet_inj (a b : nat) :
  choice alphabet a = choice alphabet b <-> a mod 64 = b mod 64.
Proof.
  unfold choice, randbelow.
  change (String.length alphabet) with 64.
  split; [|now intros ->].
  pose proof (Nat.mod_upper_bound a 64 ltac:(lia)) as Ha.
  pose proof (Nat.mod_upper_bound b 64 ltac:(lia)) as Hb.
  pose proof (get_below alphabet (a mod 64) Ha) as Ga.
  pose proof (get_below alphabet (b mod 64) Hb) as Gb.
  rewrite !get_nth_error in *.
  destruct (nth_error (list_ascii_of_string alphabet) (a mod 64)) as [x|] eqn:Ea;
    [|congruence].
  destruct (nth_error (list_ascii_of_string alphabet) (b mod 64)) as [y|] eqn:Eb;
    [|congruence].
  intros ->.
  apply (proj1 (NoDup_nth_error (list_ascii_of_string alphabet)) alphabet_NoDup);
    [exact Ha | congruence].
Qed.

(** X15. A token determines the index of the alphabet drawn for each of its
    characters: two random sources give the same token of length [n]
    exactly when their first [n] draws choose the same indices.  Distinct
    index sequences never collide. *)
Theorem generate_token_injective (n : nat) (rng1 rng2 : nat -> nat) :
  fst (generate_token (Z.of_nat n) rng1) =
  fst (generate_token (Z.of_nat n) rng2) <->
  forall i, i < n -> rng1 i mod 64 = rng2 i mod 64.
Proof.
  unfold generate_token. cbn [fst]. rewrite Nat2Z.id. split.
  - intros E i Hi.
    apply (f_equal list_ascii_of_string) in E.
    rewrite !list_ascii_of_string_of_list_ascii in E.
    apply choice_alphabet_inj.
    apply (proj1 map_ext_in_iff E). apply in_seq. lia.
  - intros H. f_equal. apply map_ext_in. intros i Hi.
    apply in_seq in Hi. apply choice_alphabet_inj. apply H. lia.
Qed.
